(** * Hybrid movie recommender: a shallow embedding of
      [recommender/recommender_engine.py] and its properties.

    The engine keeps three pandas snapshots (movies, ratings, watchlist),
    a content-similarity matrix and a collaborative model, both of which
    may come from a pickle cache.  Data frames are lists of rows, scores
    are IEEE binary64 numbers (numpy's float64 and Python's float), and
    every function that can raise returns a [result]. *)

From Stdlib Require Import String.
From Stdlib Require Import List Bool Arith ZArith Lia Permutation Sorted.
From Stdlib Require Import Floats Uint63.
Import ListNotations.

#[local] Set Warnings "-inexact-float".

(* ================================================================== *)
(** * Exceptions and fallible computations *)
(* ================================================================== *)

(** The exceptions that the engine's own code or the library calls it
    makes can raise. *)
Inductive exn : Type :=
| IndexError        (* numpy / pandas position out of bounds *)
| ValueError        (* DataFrame.sample, TfidfVectorizer *)
| TypeError         (* subscripting something that is not a dict *)
| AttributeError    (* calling .predict on something that has none *)
| UnpicklingError   (* pickle.load on bytes that are no pickle *)
| OSError           (* open on a file that cannot be read *)
| PredictionError.  (* anything raised inside a model's predict *)

(** [inl e] is "raised [e]", [inr v] is "returned [v]". *)
Definition result (A : Type) : Type := (exn + A)%type.

Definition ret {A} (v : A) : result A := inr v.
Definition raise {A} (e : exn) : result A := inl e.

Definition bind {A B} (c : result A) (k : A -> result B) : result B :=
  match c with
  | inl e => inl e
  | inr v => k v
  end.

Declare Scope result_scope.
Delimit Scope result_scope with result.
Notation "x <- c ;; k" := (bind c (fun x => k))
  (at level 61, c at next level, right associativity) : result_scope.
Open Scope result_scope.

Lemma bind_inr {A B} (c : result A) (k : A -> result B) (b : B) :
  bind c k = inr b -> exists a, c = inr a /\ k a = inr b.
Proof.
  destruct c as [e | a]; simpl; intros H; [discriminate | eauto].
Qed.

(* ================================================================== *)
(** * The order on binary64 numbers *)
(* ================================================================== *)

(** Python's [<] on floats is IEEE comparison: [PrimFloat.ltb].  Away
    from NaN it is a strict weak order; the facts are derived from the
    specification of [ltb] on [spec_float]. *)
Module F64.

Open Scope float_scope.

(** A key whose lexicographic order is the order of [SFcompare]. *)
Definition rank (f : spec_float) : Z * Z * Z :=
  match f with
  | S754_nan => (0, 0, 0)%Z
  | S754_infinity true => (-2, 0, 0)%Z
  | S754_infinity false => (2, 0, 0)%Z
  | S754_zero _ => (0, 0, 0)%Z
  | S754_finite true m e => (-1, - e, Z.neg m)%Z
  | S754_finite false m e => (1, e, Z.pos m)%Z
  end.

Definition lex_lt (a b : Z * Z * Z) : Prop :=
  let '(a1, a2, a3) := a in
  let '(b1, b2, b3) := b in
  (a1 < b1 \/ (a1 = b1 /\ (a2 < b2 \/ (a2 = b2 /\ a3 < b3))))%Z.

Definition is_nanb (x : float) : bool := PrimFloat.is_nan x.

End F64.

Lemma SFltb_rank (f g : spec_float) :
  f <> S754_nan -> g <> S754_nan ->
  (SFltb f g = true <-> F64.lex_lt (F64.rank f) (F64.rank g)).
Proof.
  intros Hf Hg. unfold SFltb, SFcompare.
  destruct f as [sf | sf | | sf mf ef]; try congruence;
  destruct g as [sg | sg | | sg mg eg]; try congruence;
  try destruct sf; try destruct sg; cbn.
  all: try (split; intros H; [ try discriminate H; lia | try reflexivity; lia ]).
  all: change (PosDef.Pos.compare_cont Eq mf mg) with (Pos.compare mf mg);
    destruct (Z.compare_spec ef eg) as [E | E | E];
    [ destruct (Pos.compare_spec mf mg) as [M | M | M] | | ]; cbn;
    (split; intros H; [ try discriminate H; lia | try reflexivity; lia ]).
Qed.

(** [x < y] holds for at most one orientation, NaN or not. *)
Lemma ltb_asym (x y : float) :
  PrimFloat.ltb x y = true -> PrimFloat.ltb y x = false.
Proof.
  rewrite !FloatAxioms.ltb_spec. intros H.
  destruct (SFltb (Prim2SF y) (Prim2SF x)) eqn:E; [ | reflexivity ].
  assert (Hx : Prim2SF x <> S754_nan).
  { intros N. rewrite N in H. discriminate H. }
  assert (Hy : Prim2SF y <> S754_nan).
  { intros N. rewrite N in E. discriminate E. }
  apply SFltb_rank in H; [ | assumption | assumption ].
  apply SFltb_rank in E; [ | assumption | assumption ].
  unfold F64.lex_lt in *.
  destruct (F64.rank (Prim2SF x)) as [[a1 a2] a3].
  destruct (F64.rank (Prim2SF y)) as [[b1 b2] b3]. lia.
Qed.

Lemma is_nan_Prim2SF (x : float) :
  F64.is_nanb x = false -> Prim2SF x <> S754_nan.
Proof.
  unfold F64.is_nanb, PrimFloat.is_nan. rewrite FloatAxioms.eqb_spec. intros H N.
  rewrite N in H. discriminate H.
Qed.

(** Away from NaN, "not less than" is transitive. *)
Lemma ltb_negtrans (x y z : float) :
  F64.is_nanb x = false -> F64.is_nanb y = false -> F64.is_nanb z = false ->
  PrimFloat.ltb x y = false -> PrimFloat.ltb y z = false ->
  PrimFloat.ltb x z = false.
Proof.
  intros Nx Ny Nz. apply is_nan_Prim2SF in Nx, Ny, Nz.
  rewrite !FloatAxioms.ltb_spec. intros Hxy Hyz.
  destruct (SFltb (Prim2SF x) (Prim2SF z)) eqn:E; [ | reflexivity ].
  apply SFltb_rank in E; [ | assumption | assumption ].
  assert (Hxy' : ~ F64.lex_lt (F64.rank (Prim2SF x)) (F64.rank (Prim2SF y))).
  { intros L. apply SFltb_rank in L; congruence. }
  assert (Hyz' : ~ F64.lex_lt (F64.rank (Prim2SF y)) (F64.rank (Prim2SF z))).
  { intros L. apply SFltb_rank in L; congruence. }
  unfold F64.lex_lt in *.
  destruct (F64.rank (Prim2SF x)) as [[a1 a2] a3].
  destruct (F64.rank (Prim2SF y)) as [[b1 b2] b3].
  destruct (F64.rank (Prim2SF z)) as [[c1 c2] c3]. lia.
Qed.

(* ================================================================== *)
(** * [list.sort(key=..., reverse=...)] *)
(* ================================================================== *)

(** Python's sort is stable and compares keys with [<] only.  It is
    modelled by a stable insertion sort; on keys that [<] orders as a
    strict weak order (no NaN) every stable sort returns the same list, so
    there the model and the interpreter's merge sort agree on the
    result.  With [reverse=True] the interpreter reverses the list,
    sorts it ascending and reverses it again, which keeps equal keys in
    their original order. *)
Section ListSort.

Variable A : Type.
Variable key : A -> float.

Fixpoint insert_by_key (x : A) (l : list A) : list A :=
  match l with
  | [] => [x]
  | y :: l' =>
      if PrimFloat.ltb (key y) (key x)
      then y :: insert_by_key x l'
      else x :: y :: l'
  end.

Definition sort_ascending (l : list A) : list A :=
  fold_right insert_by_key [] l.

Definition list_sort (reverse : bool) (l : list A) : list A :=
  if reverse then rev (sort_ascending (rev l)) else sort_ascending l.

(** [a] never compares below [b]: the relation between an earlier and
    a later element of a list sorted in descending order. *)
Definition not_below (a b : A) : Prop :=
  PrimFloat.ltb (key a) (key b) = false.

Definition not_above (a b : A) : Prop :=
  PrimFloat.ltb (key b) (key a) = false.

(** [tied a b]: neither key is less than the other. *)
Definition tied (a b : A) : bool :=
  negb (PrimFloat.ltb (key a) (key b)) &&
  negb (PrimFloat.ltb (key b) (key a)).

Definition keys_not_nan (l : list A) : Prop :=
  Forall (fun a => F64.is_nanb (key a) = false) l.

Lemma insert_by_key_perm (x : A) (l : list A) :
  Permutation (insert_by_key x l) (x :: l).
Proof.
  induction l as [ | y l IH ]; simpl.
  - apply Permutation_refl.
  - destruct (PrimFloat.ltb (key y) (key x)).
    + apply Permutation_trans with (y :: x :: l).
      * apply perm_skip, IH.
      * apply perm_swap.
    + apply Permutation_refl.
Qed.

Lemma sort_ascending_perm (l : list A) :
  Permutation (sort_ascending l) l.
Proof.
  induction l as [ | x l IH ]; simpl.
  - apply perm_nil.
  - apply Permutation_trans with (x :: sort_ascending l).
    + apply insert_by_key_perm.
    + apply perm_skip, IH.
Qed.

Lemma list_sort_perm (reverse : bool) (l : list A) :
  Permutation (list_sort reverse l) l.
Proof.
  unfold list_sort. destruct reverse.
  - apply Permutation_trans with (sort_ascending (rev l)).
    + apply Permutation_sym, Permutation_rev.
    + apply Permutation_trans with (rev l).
      * apply sort_ascending_perm.
      * apply Permutation_sym, Permutation_rev.
  - apply sort_ascending_perm.
Qed.

Lemma keys_not_nan_perm (l l' : list A) :
  Permutation l l' -> keys_not_nan l -> keys_not_nan l'.
Proof.
  unfold keys_not_nan. intros P H. eapply Permutation_Forall; eassumption.
Qed.

Lemma insert_by_key_sorted (x : A) (l : list A) :
  F64.is_nanb (key x) = false -> keys_not_nan l ->
  StronglySorted not_above l ->
  StronglySorted not_above (insert_by_key x l).
Proof.
  intros Nx Nl S. induction S as [ | y l S IH Hy ]; simpl.
  - repeat constructor.
  - inversion Nl as [ | ? ? Ny Nl' ]; subst.
    destruct (PrimFloat.ltb (key y) (key x)) eqn:E.
    + constructor.
      * apply IH, Nl'.
      * apply Permutation_Forall with (x :: l).
        -- apply Permutation_sym, insert_by_key_perm.
        -- constructor; [ | exact Hy ].
           unfold not_above. apply ltb_asym, E.
    + constructor.
      * constructor; assumption.
      * constructor; [ exact E | ].
        rewrite Forall_forall in Hy, Nl' |- *. intros z Hz.
        unfold not_above in *.
        apply ltb_negtrans with (key y); auto.
Qed.

Lemma sort_ascending_sorted (l : list A) :
  keys_not_nan l -> StronglySorted not_above (sort_ascending l).
Proof.
  induction l as [ | x l IH ]; simpl; intros N.
  - constructor.
  - inversion N; subst. apply insert_by_key_sorted; auto.
    apply keys_not_nan_perm with l; auto.
    apply Permutation_sym, sort_ascending_perm.
Qed.

(** Stability: among the elements tied with [a], insertion changes
    nothing. *)
Lemma insert_by_key_stable (a x : A) (l : list A) :
  F64.is_nanb (key a) = false -> F64.is_nanb (key x) = false ->
  keys_not_nan l ->
  filter (tied a) (insert_by_key x l) = filter (tied a) (x :: l).
Proof.
  intros Na Nx Nl. induction Nl as [ | y l Ny Nl IH ]; simpl.
  - reflexivity.
  - destruct (PrimFloat.ltb (key y) (key x)) eqn:E; [ | reflexivity ].
    simpl. rewrite IH. simpl.
    destruct (tied a x) eqn:Tx, (tied a y) eqn:Ty; try reflexivity.
    exfalso. unfold tied in Tx, Ty.
    apply andb_true_iff in Tx, Ty.
    destruct Tx as [Tax _], Ty as [_ Tya].
    apply negb_true_iff in Tax, Tya.
    assert (PrimFloat.ltb (key y) (key x) = false); [ | congruence ].
    apply (ltb_negtrans (key y) (key a) (key x)); assumption.
Qed.

Lemma sort_ascending_stable (a : A) (l : list A) :
  F64.is_nanb (key a) = false -> keys_not_nan l ->
  filter (tied a) (sort_ascending l) = filter (tied a) l.
Proof.
  intros Na. induction l as [ | x l IH ]; simpl; intros N.
  - reflexivity.
  - inversion N as [ | ? ? Nx Nl ]; subst.
    rewrite insert_by_key_stable; auto.
    + simpl. rewrite IH by assumption. reflexivity.
    + apply keys_not_nan_perm with l; auto.
      apply Permutation_sym, sort_ascending_perm.
Qed.

Lemma filter_rev (p : A -> bool) (l : list A) :
  filter p (rev l) = rev (filter p l).
Proof.
  induction l as [ | x l IH ]; simpl.
  - reflexivity.
  - rewrite filter_app, IH. simpl. destruct (p x); simpl.
    + reflexivity.
    + rewrite app_nil_r. reflexivity.
Qed.

Lemma StronglySorted_app (R : A -> A -> Prop) (l : list A) (x : A) :
  StronglySorted R l -> Forall (fun y => R y x) l ->
  StronglySorted R (l ++ [x]).
Proof.
  induction 1 as [ | y l S IH Hy ]; simpl; intros F.
  - repeat constructor.
  - inversion F; subst. constructor.
    + apply IH; assumption.
    + apply Forall_app. split; [ exact Hy | repeat constructor; assumption ].
Qed.

Lemma StronglySorted_rev (R : A -> A -> Prop) (l : list A) :
  StronglySorted R l -> StronglySorted (fun a b => R b a) (rev l).
Proof.
  induction 1 as [ | y l S IH Hy ]; simpl.
  - constructor.
  - apply StronglySorted_app; [ exact IH | ].
    apply Forall_rev. exact Hy.
Qed.

(** The three facts about [list.sort(key, reverse=True)] used below. *)
Lemma list_sort_reverse_sorted (l : list A) :
  keys_not_nan l -> StronglySorted not_below (list_sort true l).
Proof.
  intros N. unfold list_sort.
  apply (StronglySorted_rev not_above).
  apply sort_ascending_sorted.
  apply keys_not_nan_perm with l; [ apply Permutation_rev | exact N ].
Qed.

Lemma list_sort_reverse_stable (a : A) (l : list A) :
  F64.is_nanb (key a) = false -> keys_not_nan l ->
  filter (tied a) (list_sort true l) = filter (tied a) l.
Proof.
  intros Na N. unfold list_sort.
  rewrite filter_rev, sort_ascending_stable, filter_rev, rev_involutive.
  - reflexivity.
  - exact Na.
  - apply keys_not_nan_perm with l; [ apply Permutation_rev | exact N ].
Qed.

End ListSort.

Arguments insert_by_key {A} key x l.
Arguments sort_ascending {A} key l.
Arguments list_sort {A} key reverse l.
Arguments not_below {A} key a b.
Arguments not_above {A} key a b.
Arguments tied {A} key a b.
Arguments keys_not_nan {A} key l.

(* ================================================================== *)
(** * The three snapshots *)
(* ================================================================== *)

(** One row type per SQL query of [_load_data]; identifiers are the
    integer primary and foreign keys of the tables. *)
Module Movie.
Record row : Type := mk {
  id : nat;
  title : String.string;
  genre : option String.string;      (* NULL is [None] *)
  overview : option String.string;
  tmdb_id : nat }.
End Movie.

Module Rating.
Record row : Type := mk {
  id : nat;
  user_id : nat;
  movie_id : nat;
  rating : float;
  timestamp : nat }.
End Rating.

Module Watchlist.
Record row : Type := mk {
  id : nat;
  user_id : nat;
  movie_id : nat;
  added_at : nat }.
End Watchlist.

(** What the database connection holds when [_load_data] runs. *)
Record database : Type := {
  recommender_movie : list Movie.row;
  recommender_rating : list Rating.row;
  recommender_watchlist : list Watchlist.row }.

(** numpy's two-dimensional float64 array, row by row. *)
Definition ndarray : Type := list (list float).

(** [a[i, j]] with non-negative positions. *)
Definition getitem2 (a : ndarray) (i j : nat) : result float :=
  match nth_error a i with
  | None => raise IndexError
  | Some r =>
      match nth_error r j with
      | None => raise IndexError
      | Some v => ret v
      end
  end.

(** [enumerate]: a frame read by [read_sql_query] carries the labels
    0, 1, 2, ... so a row's label is its position. *)
Definition iterrows {A} (df : list A) : list (nat * A) :=
  combine (seq 0 (length df)) df.

(** [count]-th integer as a float64, for a group size times a mean. *)
Definition float_of_nat (n : nat) : float :=
  PrimFloat.of_uint63 (Uint63.of_Z (Z.of_nat n)).

(** Keys of [groupby]: the distinct values in ascending order. *)
Fixpoint insert_key (k : nat) (l : list nat) : list nat :=
  match l with
  | [] => [k]
  | x :: l' =>
      if k <? x then k :: x :: l'
      else if k =? x then x :: l'
      else x :: insert_key k l'
  end.

Definition groupby_keys (l : list nat) : list nat :=
  fold_right insert_key [] l.

(** [DataFrame.take] by position. *)
Fixpoint take {A} (df : list A) (positions : list nat) : result (list A) :=
  match positions with
  | [] => ret []
  | i :: rest =>
      match nth_error df i with
      | None => raise IndexError
      | Some r => rs <- take df rest ;; ret (r :: rs)
      end
  end.

(** [DataFrame.sample(n=n)]: without replacement, so asking for more
    rows than the frame has raises [ValueError].  [random_state pop size]
    is what the global generator's [choice(pop, size, replace=False)]
    returns at the time of the call. *)
Definition sample {A} (random_state : nat -> nat -> list nat)
    (df : list A) (n : nat) : result (list A) :=
  if length df <? n then raise ValueError
  else take df (random_state (length df) n).

(** A generator is well behaved when it draws distinct positions inside
    the population. *)
Definition choice_ok (random_state : nat -> nat -> list nat) : Prop :=
  forall pop size, size <= pop ->
    length (random_state pop size) = size /\
    NoDup (random_state pop size) /\
    Forall (fun i => i < pop) (random_state pop size).

(** One entry of the [recommendations] list built by
    [get_recommendations]. *)
Record recommendation : Type := {
  rec_movie_id : nat;
  content_score : float;
  collab_score : float;
  hybrid_score : float;
  in_watchlist : bool }.

(* ================================================================== *)
(** * The engine *)
(* ================================================================== *)

Section Engine.

(** ** Library code the engine calls

    scikit-learn, numpy, pandas and surprise are not part of the
    repository; what the engine takes from them is a parameter. *)

(** A fitted [TfidfVectorizer] and the sparse matrix it produced. *)
Variable vectorizer : Type.
Variable tfidf : Type.

(** [TfidfVectorizer(stop_words='english', max_features=5000,
    ngram_range=(1, 2)).fit_transform]; raises on an empty vocabulary. *)
Variable fit_transform : list String.string -> result (vectorizer * tfidf).

(** [sklearn.metrics.pairwise.cosine_similarity]. *)
Variable cosine_similarity : tfidf -> tfidf -> ndarray.

(** [train_test_split(.., test_size=0.2, random_state=42)] followed by
    [SVD(n_factors=50, n_epochs=20, random_state=42).fit]: from the
    (user, movie, rating) triples to the fitted model's [predict(..).est]. *)
Variable svd_fit : list (nat * nat * float) -> nat -> nat -> result float.

(** [np.mean] of a non-empty list of float64. *)
Variable np_mean : list float -> float.

(** The mean pandas computes for one group of [groupby(..)['rating']]. *)
Variable groupby_mean : list float -> float.

(** [Series.sort_values(ascending=False)] on a Series of float64 indexed
    by movie id.  Its default algorithm is not stable, so nothing is
    assumed about the order of equal values. *)
Variable sort_values_descending : list (nat * float) -> list (nat * float).

Definition sort_values_spec : Prop :=
  forall s : list (nat * float),
    Permutation (sort_values_descending s) s /\
    (keys_not_nan snd s ->
     StronglySorted (not_below snd) (sort_values_descending s)).

(** ** Objects and the pickle cache *)

(** The dict written to [content_model.pkl]. *)
Record cache_data : Type := {
  cd_vectorizer : vectorizer;
  cd_matrix : tfidf;
  cd_similarity : ndarray }.

(** The Python values a cache file can unpickle to.  [PySVD p] is a
    fitted model whose [predict(u, i).est] is [p u i]. *)
Inductive pyobj : Type :=
| PyNone
| PyDict (d : cache_data)
| PySVD (predict : nat -> nat -> result float)
| PyOther.

(** A file of the cache directory: one that cannot be opened, one whose
    bytes [pickle.load] rejects, or the pickle of an object. *)
Inductive file : Type :=
| Unreadable
| Garbage
| Pickle (o : pyobj).

(** [recommender/cache]: [None] is "does not exist". *)
Record cache_dir : Type := {
  content_model_pkl : option file;
  svd_model_pkl : option file }.

(** [with open(f, 'rb') as fh: pickle.load(fh)] *)
Definition pickle_load (f : file) : result pyobj :=
  match f with
  | Unreadable => raise OSError
  | Garbage => raise UnpicklingError
  | Pickle o => ret o
  end.

(** ** State of a constructed engine *)
Record HybridRecommender : Type := {
  movies_df : list Movie.row;
  ratings_df : list Rating.row;
  watchlist_df : list Watchlist.row;
  tfidf_vectorizer : vectorizer;
  tfidf_matrix : tfidf;
  content_similarity : ndarray;
  svd_model : pyobj }.

(** ** Construction *)

Definition _load_data (connection : database)
  : list Movie.row * list Rating.row * list Watchlist.row :=
  (recommender_movie connection,
   recommender_rating connection,
   recommender_watchlist connection).

Definition fillna (s : option String.string) : String.string :=
  match s with
  | Some v => v
  | None => String.EmptyString
  end.

(** [genre.fillna('') + ' ' + overview.fillna('')] *)
Definition content (m : Movie.row) : String.string :=
  String.append (fillna (Movie.genre m))
    (String.append " "%string
       (fillna (Movie.overview m))).

(** Returns the three attributes it sets and the cache directory it
    leaves behind. *)
Definition _build_content_model (cache : cache_dir) (movies : list Movie.row)
  : result cache_data * cache_dir :=
  match content_model_pkl cache with
  | Some f =>
      (o <- pickle_load f ;;
       match o with
       | PyDict d => ret d
       | _ => raise TypeError      (* cache_data['vectorizer'] *)
       end,
       cache)
  | None =>
      match fit_transform (map content movies) with
      | inl e => (inl e, cache)
      | inr (v, m) =>
          let d := {| cd_vectorizer := v;
                      cd_matrix := m;
                      cd_similarity := cosine_similarity m m |} in
          (ret d,
           {| content_model_pkl := Some (Pickle (PyDict d));
              svd_model_pkl := svd_model_pkl cache |})
      end
  end.

Definition _build_collaborative_model (cache : cache_dir)
    (ratings : list Rating.row) : result pyobj * cache_dir :=
  match svd_model_pkl cache with
  | Some f => (pickle_load f, cache)
  | None =>
      if length ratings <? 100 then (ret PyNone, cache)
      else
        let data :=
          map (fun r => (Rating.user_id r, Rating.movie_id r, Rating.rating r))
              ratings in
        let model := PySVD (svd_fit data) in
        (ret model,
         {| content_model_pkl := content_model_pkl cache;
            svd_model_pkl := Some (Pickle model) |})
  end.

(** [HybridRecommender()]: the engine, or the exception that escaped,
    and the cache directory afterwards. *)
Definition __init__ (cache : cache_dir) (connection : database)
  : result HybridRecommender * cache_dir :=
  let '(movies, ratings, watchlist) := _load_data connection in
  match _build_content_model cache movies with
  | (inl e, cache1) => (inl e, cache1)
  | (inr d, cache1) =>
      match _build_collaborative_model cache1 ratings with
      | (inl e, cache2) => (inl e, cache2)
      | (inr m, cache2) =>
          (ret {| movies_df := movies;
                  ratings_df := ratings;
                  watchlist_df := watchlist;
                  tfidf_vectorizer := cd_vectorizer d;
                  tfidf_matrix := cd_matrix d;
                  content_similarity := cd_similarity d;
                  svd_model := m |},
           cache2)
      end
  end.

(** ** Scoring *)

(** Label of the first row whose [id] is [movie_id]:
    [movies_df[movies_df['id'] == movie_id].index], then [[0]]. *)
Fixpoint index_of (movie_id : nat) (rows : list (nat * Movie.row))
  : option nat :=
  match rows with
  | [] => None
  | (i, m) :: rest =>
      if Movie.id m =? movie_id then Some i else index_of movie_id rest
  end.

(** The [for rated_movie_id in rated_movies] loop: one similarity for
    each rated id that the movie frame knows, in order. *)
Fixpoint similarities (self : HybridRecommender) (movie_idx : nat)
    (rated_movies : list nat) : result (list float) :=
  match rated_movies with
  | [] => ret []
  | rated_movie_id :: rest =>
      match index_of rated_movie_id (iterrows (movies_df self)) with
      | Some rated_idx =>
          sim <- getitem2 (content_similarity self) movie_idx rated_idx ;;
          sims <- similarities self movie_idx rest ;;
          ret (sim :: sims)
      | None => similarities self movie_idx rest
      end
  end.

Definition _get_content_scores (self : HybridRecommender) (movie_idx : nat)
    (rated_movies : list nat) : result float :=
  match rated_movies with
  | [] => ret 0%float
  | _ :: _ =>
      sims <- similarities self movie_idx rated_movies ;;
      ret (match sims with
           | [] => 0%float
           | _ :: _ => np_mean sims
           end)
  end.

(** [self.svd_model.predict(user_id, movie_id).est] *)
Definition predict_est (model : pyobj) (user_id movie_id : nat)
  : result float :=
  match model with
  | PySVD predict => predict user_id movie_id
  | _ => raise AttributeError
  end.

Definition _get_collaborative_score (self : HybridRecommender)
    (user_id movie_id : nat) : float :=
  match svd_model self with
  | PyNone => 3.0%float
  | model =>
      match predict_est model user_id movie_id with
      | inr est => est
      | inl _ => 3.0%float          (* bare except *)
      end
  end.

Definition _is_in_watchlist (self : HybridRecommender)
    (user_id movie_id : nat) : bool :=
  existsb (fun w => (Watchlist.user_id w =? user_id) &&
                    (Watchlist.movie_id w =? movie_id))
          (watchlist_df self).

(** ** Cold start *)

(** Rows of the rating frame in the group of [movie_id]. *)
Definition group (self : HybridRecommender) (movie_id : nat)
  : list Rating.row :=
  filter (fun r => Rating.movie_id r =? movie_id) (ratings_df self).

(** [movie_ratings_count * movie_avg_rating]: one entry per group, in
    ascending order of the movie id. *)
Definition popularity (self : HybridRecommender) : list (nat * float) :=
  map (fun movie_id =>
         (movie_id,
          (float_of_nat (length (group self movie_id)) *
           groupby_mean (map Rating.rating (group self movie_id)))%float))
      (groupby_keys (map Rating.movie_id (ratings_df self))).

Definition _get_popular_movies (self : HybridRecommender)
    (random_state : nat -> nat -> list nat) (n : nat) : result (list nat) :=
  if length (ratings_df self) =? 0 then
    rows <- sample random_state (movies_df self) n ;;
    ret (map Movie.id rows)
  else
    ret (map fst (firstn n (sort_values_descending (popularity self)))).

(** ** Recommendations *)

Definition isin (x : nat) (l : list nat) : bool := existsb (Nat.eqb x) l.

(** Body of the [for _, movie in unrated_movies.iterrows()] loop. *)
Definition score_movie (self : HybridRecommender) (user_id : nat)
    (rated_movie_ids : list nat) (labelled : nat * Movie.row)
  : result recommendation :=
  let movie_id := Movie.id (snd labelled) in
  let movie_idx := fst labelled in
  content_score <- _get_content_scores self movie_idx rated_movie_ids ;;
  let collab_score := _get_collaborative_score self user_id movie_id in
  let content_score_normalized := (content_score * 5)%float in
  let hybrid_score :=
    (0.4 * content_score_normalized + 0.6 * collab_score)%float in
  let hybrid_score :=
    if _is_in_watchlist self user_id movie_id
    then (hybrid_score + 0.2)%float
    else hybrid_score in
  ret {| rec_movie_id := movie_id;
         content_score := content_score_normalized;
         collab_score := collab_score;
         hybrid_score := hybrid_score;
         in_watchlist := _is_in_watchlist self user_id movie_id |}.

(** The loop itself: it stops at the first exception. *)
Fixpoint for_each {A B} (body : A -> result B) (l : list A)
  : result (list B) :=
  match l with
  | [] => ret []
  | x :: rest =>
      r <- body x ;;
      rs <- for_each body rest ;;
      ret (r :: rs)
  end.

Definition user_ratings (self : HybridRecommender) (user_id : nat)
  : list Rating.row :=
  filter (fun r => Rating.user_id r =? user_id) (ratings_df self).

Definition unrated_movies (self : HybridRecommender)
    (rated_movie_ids : list nat) : list (nat * Movie.row) :=
  filter (fun im => negb (isin (Movie.id (snd im)) rated_movie_ids))
         (iterrows (movies_df self)).

(** The [recommendations] list before it is sorted. *)
Definition recommendations (self : HybridRecommender) (user_id : nat)
  : result (list recommendation) :=
  let rated_movie_ids := map Rating.movie_id (user_ratings self user_id) in
  for_each (score_movie self user_id rated_movie_ids)
           (unrated_movies self rated_movie_ids).

(** [n] is the number of recommendations asked for, a count. *)
Definition get_recommendations (self : HybridRecommender)
    (random_state : nat -> nat -> list nat) (user_id n : nat)
  : result (list nat) :=
  if length (user_ratings self user_id) =? 0 then
    _get_popular_movies self random_state n
  else
    recs <- recommendations self user_id ;;
    ret (map rec_movie_id (firstn n (list_sort hybrid_score true recs))).

(* ------------------------------------------------------------------ *)
(** ** Facts about the loop and one scoring step *)
(* ------------------------------------------------------------------ *)

Lemma for_each_inr {A B} (body : A -> result B) (l : list A) (rs : list B) :
  for_each body l = inr rs -> Forall2 (fun x r => body x = inr r) l rs.
Proof.
  revert rs. induction l as [ | x l IH ]; simpl; intros rs H.
  - inversion H. constructor.
  - apply bind_inr in H. destruct H as (r & Hr & H).
    apply bind_inr in H. destruct H as (rs' & Hrs & H).
    inversion H; subst. constructor; auto.
Qed.

Lemma for_each_inl {A B} (body : A -> result B) (l : list A) (e : exn) :
  for_each body l = inl e -> exists x, In x l /\ body x = inl e.
Proof.
  induction l as [ | x l IH ]; simpl; intros H.
  - discriminate H.
  - destruct (body x) as [e' | r] eqn:Hx; simpl in H.
    + inversion H; subst. exists x. auto.
    + destruct (for_each body l) as [e' | rs] eqn:Hl; simpl in H.
      * inversion H; subst. destruct (IH eq_refl) as (y & Hy & Hb).
        exists y. auto.
      * discriminate H.
Qed.

Lemma Forall2_In_r {A B} (R : A -> B -> Prop) (l : list A) (rs : list B) :
  Forall2 R l rs -> forall r, In r rs -> exists x, In x l /\ R x r.
Proof.
  induction 1 as [ | x r l rs Hxr _ IH ]; simpl; intros r0 Hin.
  - contradiction.
  - destruct Hin as [-> | Hin].
    + exists x. auto.
    + destruct (IH r0 Hin) as (y & Hy & Hr). exists y. auto.
Qed.

(** The value the loop body gives to every field, read off the code. *)
Definition scored (self : HybridRecommender) (user_id : nat)
    (labelled : nat * Movie.row) (c : float) (r : recommendation) : Prop :=
  let movie_id := Movie.id (snd labelled) in
  rec_movie_id r = movie_id /\
  content_score r = (c * 5)%float /\
  collab_score r = _get_collaborative_score self user_id movie_id /\
  in_watchlist r = _is_in_watchlist self user_id movie_id /\
  hybrid_score r =
    if in_watchlist r
    then (0.4 * content_score r + 0.6 * collab_score r + 0.2)%float
    else (0.4 * content_score r + 0.6 * collab_score r)%float.

Lemma score_movie_inr (self : HybridRecommender) (user_id : nat)
    (rated : list nat) (labelled : nat * Movie.row) (r : recommendation) :
  score_movie self user_id rated labelled = inr r ->
  exists c,
    _get_content_scores self (fst labelled) rated = inr c /\
    scored self user_id labelled c r.
Proof.
  unfold score_movie. intros H.
  apply bind_inr in H. destruct H as (c & Hc & H).
  exists c. split; [ exact Hc | ].
  inversion H; subst; clear H. unfold scored; simpl.
  repeat split; reflexivity.
Qed.

Lemma score_movie_inl (self : HybridRecommender) (user_id : nat)
    (rated : list nat) (labelled : nat * Movie.row) (e : exn) :
  score_movie self user_id rated labelled = inl e ->
  _get_content_scores self (fst labelled) rated = inl e.
Proof.
  unfold score_movie.
  destruct (_get_content_scores self (fst labelled) rated); simpl; intros H.
  - inversion H. reflexivity.
  - discriminate H.
Qed.

Lemma recommendations_scored (self : HybridRecommender) (user_id : nat)
    (recs : list recommendation) :
  recommendations self user_id = inr recs ->
  Forall2
    (fun labelled r =>
       exists c,
         _get_content_scores self (fst labelled)
           (map Rating.movie_id (user_ratings self user_id)) = inr c /\
         scored self user_id labelled c r)
    (unrated_movies self (map Rating.movie_id (user_ratings self user_id)))
    recs.
Proof.
  unfold recommendations. intros H. apply for_each_inr in H.
  eapply Forall2_impl; [ | exact H ].
  intros labelled r Hr. apply score_movie_inr, Hr.
Qed.

(* ------------------------------------------------------------------ *)
(** ** Hybrid score and watchlist boost *)
(* ------------------------------------------------------------------ *)

(** The same engine over another watchlist snapshot. *)
Definition with_watchlist (self : HybridRecommender)
    (watchlist : list Watchlist.row) : HybridRecommender :=
  {| movies_df := movies_df self;
     ratings_df := ratings_df self;
     watchlist_df := watchlist;
     tfidf_vectorizer := tfidf_vectorizer self;
     tfidf_matrix := tfidf_matrix self;
     content_similarity := content_similarity self;
     svd_model := svd_model self |}.

Lemma similarities_with_watchlist (self : HybridRecommender)
    (watchlist : list Watchlist.row) (movie_idx : nat) (rated : list nat) :
  similarities (with_watchlist self watchlist) movie_idx rated =
  similarities self movie_idx rated.
Proof.
  induction rated as [ | rid rated IH ]; simpl.
  - reflexivity.
  - rewrite IH. reflexivity.
Qed.

Lemma _get_content_scores_with_watchlist (self : HybridRecommender)
    (watchlist : list Watchlist.row) (movie_idx : nat) (rated : list nat) :
  _get_content_scores (with_watchlist self watchlist) movie_idx rated =
  _get_content_scores self movie_idx rated.
Proof.
  unfold _get_content_scores.
  rewrite similarities_with_watchlist. reflexivity.
Qed.

Lemma for_each_related {A B} (R : B -> B -> Prop)
    (f g : A -> result B) (l : list A) (rs : list B) :
  (forall x r, In x l -> f x = inr r -> exists r', g x = inr r' /\ R r r') ->
  for_each f l = inr rs ->
  exists rs', for_each g l = inr rs' /\ Forall2 R rs rs'.
Proof.
  revert rs. induction l as [ | x l IH ]; simpl; intros rs Hfg H.
  - inversion H. exists []. split; [ reflexivity | constructor ].
  - apply bind_inr in H. destruct H as (r & Hr & H).
    apply bind_inr in H. destruct H as (rs0 & Hrs & H).
    inversion H; subst; clear H.
    destruct (Hfg x r (or_introl eq_refl) Hr) as (r' & Hg & HR).
    destruct (IH rs0) as (rs' & Hgs & HRs); auto.
    exists (r' :: rs'). rewrite Hg, Hgs. simpl.
    split; [ reflexivity | constructor; assumption ].
Qed.

Lemma Forall2_nth_error_l {A B} (R : A -> B -> Prop) (l : list A)
    (rs : list B) :
  Forall2 R l rs ->
  forall i x, nth_error l i = Some x ->
  exists r, nth_error rs i = Some r /\ R x r.
Proof.
  induction 1 as [ | x r l rs Hxr _ IH ]; intros i x0 Hi.
  - destruct i; discriminate Hi.
  - destruct i as [ | i ]; simpl in *.
    + inversion Hi; subst. exists r. auto.
    + apply IH, Hi.
Qed.

Lemma Forall2_nth_error_r {A B} (R : A -> B -> Prop) (l : list A)
    (rs : list B) :
  Forall2 R l rs ->
  forall i r, nth_error rs i = Some r ->
  exists x, nth_error l i = Some x /\ R x r.
Proof.
  induction 1 as [ | x r l rs Hxr _ IH ]; intros i r0 Hi.
  - destruct i; discriminate Hi.
  - destruct i as [ | i ]; simpl in *.
    + inversion Hi; subst. exists x. auto.
    + apply IH, Hi.
Qed.

(** What changing only the watchlist does to one record. *)
Definition same_but_watchlist (r r' : recommendation) : Prop :=
  rec_movie_id r' = rec_movie_id r /\
  content_score r' = content_score r /\
  collab_score r' = collab_score r /\
  (in_watchlist r = false -> in_watchlist r' = true ->
   hybrid_score r' = (hybrid_score r + 0.2)%float).

Lemma score_movie_with_watchlist (self : HybridRecommender)
    (watchlist : list Watchlist.row) (user_id : nat) (rated : list nat)
    (labelled : nat * Movie.row) (r : recommendation) :
  score_movie self user_id rated labelled = inr r ->
  exists r',
    score_movie (with_watchlist self watchlist) user_id rated labelled
      = inr r' /\
    same_but_watchlist r r'.
Proof.
  unfold score_movie. intros H.
  rewrite _get_content_scores_with_watchlist.
  apply bind_inr in H. destruct H as (c & Hc & H). rewrite Hc. simpl.
  eexists. split; [ reflexivity | ].
  inversion H; subst; clear H. unfold same_but_watchlist; simpl.
  repeat split.
  intros Hf Ht. rewrite Hf, Ht. reflexivity.
Qed.

(** Membership in the watchlist, on the rows of the frame: some row
    carries this user and this movie. *)
Lemma _is_in_watchlist_rows (self : HybridRecommender)
    (user_id movie_id : nat) :
  _is_in_watchlist self user_id movie_id = true <->
  exists w, In w (watchlist_df self) /\
            Watchlist.user_id w = user_id /\
            Watchlist.movie_id w = movie_id.
Proof.
  unfold _is_in_watchlist. rewrite existsb_exists. split.
  - intros (w & Hin & Hw). apply andb_true_iff in Hw.
    destruct Hw as [Hu Hm]. apply Nat.eqb_eq in Hu, Hm.
    exists w. auto.
  - intros (w & Hin & Hu & Hm). exists w. split; [ exact Hin | ].
    apply andb_true_iff. split; apply Nat.eqb_eq; assumption.
Qed.

(** C3. Every record the scoring pass builds has
    hybrid = 0.4 * content + 0.6 * collaborative, with 0.2 added exactly
    when some row of the watchlist frame carries the requesting user
    and the candidate, and nothing clamped; and over another watchlist
    snapshot the record at the same place has the same component
    scores, is flagged exactly when that snapshot has such a row, and,
    when only the second is flagged, has a hybrid score that is the
    other one plus 0.2. *)
Theorem hybrid_score_weights_and_boost
    (self : HybridRecommender) (user_id : nat)
    (watchlist : list Watchlist.row)
    (recs : list recommendation) (i : nat) (r : recommendation) :
  recommendations self user_id = inr recs ->
  nth_error recs i = Some r ->
  (in_watchlist r = true <->
   exists w, In w (watchlist_df self) /\
             Watchlist.user_id w = user_id /\
             Watchlist.movie_id w = rec_movie_id r) /\
  hybrid_score r =
    (if in_watchlist r
     then (0.4 * content_score r + 0.6 * collab_score r + 0.2)%float
     else (0.4 * content_score r + 0.6 * collab_score r)%float) /\
  exists recs' r',
    recommendations (with_watchlist self watchlist) user_id = inr recs' /\
    nth_error recs' i = Some r' /\
    rec_movie_id r' = rec_movie_id r /\
    content_score r' = content_score r /\
    collab_score r' = collab_score r /\
    (in_watchlist r' = true <->
     exists w, In w watchlist /\
               Watchlist.user_id w = user_id /\
               Watchlist.movie_id w = rec_movie_id r) /\
    (in_watchlist r = false -> in_watchlist r' = true ->
     hybrid_score r' = (hybrid_score r + 0.2)%float).
Proof.
  intros Hrecs Hi.
  pose proof (recommendations_scored self user_id recs Hrecs) as Hsc.
  destruct (Forall2_nth_error_r _ _ _ Hsc i r Hi) as (labelled & _ & c & _ & S).
  destruct S as (Hid & _ & _ & Hw & Hh).
  split.
  { rewrite Hw, <- Hid. apply _is_in_watchlist_rows. }
  split; [ exact Hh | ].
  assert (Hrecs0 := Hrecs).
  unfold recommendations in Hrecs |- *.
  change (user_ratings (with_watchlist self watchlist) user_id)
    with (user_ratings self user_id).
  change (unrated_movies (with_watchlist self watchlist))
    with (unrated_movies self).
  destruct (for_each_related same_but_watchlist
              (score_movie self user_id
                 (map Rating.movie_id (user_ratings self user_id)))
              (score_movie (with_watchlist self watchlist) user_id
                 (map Rating.movie_id (user_ratings self user_id)))
              (unrated_movies self
                 (map Rating.movie_id (user_ratings self user_id)))
              recs)
    as (recs' & Hrecs' & HF).
  - intros x r0 _ Hx. apply score_movie_with_watchlist, Hx.
  - exact Hrecs.
  - destruct (Forall2_nth_error_l _ _ _ HF i r Hi) as (r' & Hi' & Hs).
    destruct Hs as (Hid' & Hc' & Hk' & Hboost).
    exists recs', r'. split; [ exact Hrecs' | ]. split; [ exact Hi' | ].
    split; [ exact Hid' | ]. split; [ exact Hc' | ].
    split; [ exact Hk' | ]. split; [ | exact Hboost ].
    pose proof (recommendations_scored (with_watchlist self watchlist)
                  user_id recs' Hrecs') as Hsc'.
    destruct (Forall2_nth_error_r _ _ _ Hsc' i r' Hi')
      as (labelled' & _ & c' & _ & S').
    destruct S' as (Hid2 & _ & _ & Hw2 & _).
    rewrite Hw2, <- Hid2, Hid'.
    apply (_is_in_watchlist_rows (with_watchlist self watchlist)).
Qed.

(* ------------------------------------------------------------------ *)
(** ** Content score *)
(* ------------------------------------------------------------------ *)

(** Positions, in the movie frame, of the rated ids that the frame
    contains; ids it does not contain are skipped. *)
Definition rated_positions (self : HybridRecommender)
    (rated_movies : list nat) : list nat :=
  flat_map (fun rated_movie_id =>
              match index_of rated_movie_id (iterrows (movies_df self)) with
              | Some rated_idx => [rated_idx]
              | None => []
              end)
           rated_movies.

Lemma similarities_for_each (self : HybridRecommender) (movie_idx : nat)
    (rated_movies : list nat) :
  similarities self movie_idx rated_movies =
  for_each (getitem2 (content_similarity self) movie_idx)
           (rated_positions self rated_movies).
Proof.
  induction rated_movies as [ | rid rated IH ]; simpl.
  - reflexivity.
  - destruct (index_of rid (iterrows (movies_df self))) as [ j | ]; simpl.
    + rewrite IH. reflexivity.
    + exact IH.
Qed.

Lemma _get_content_scores_inr (self : HybridRecommender) (movie_idx : nat)
    (rated_movies : list nat) (c : float) :
  _get_content_scores self movie_idx rated_movies = inr c ->
  exists sims,
    for_each (getitem2 (content_similarity self) movie_idx)
             (rated_positions self rated_movies) = inr sims /\
    c = match sims with
        | [] => 0%float
        | _ :: _ => np_mean sims
        end.
Proof.
  unfold _get_content_scores. destruct rated_movies as [ | rid rated ].
  - intros H. inversion H. exists []. split; reflexivity.
  - rewrite similarities_for_each. intros H.
    apply bind_inr in H. destruct H as (sims & Hs & H).
    exists sims. split; [ exact Hs | ]. inversion H. reflexivity.
Qed.

Lemma _get_content_scores_no_overlap (self : HybridRecommender)
    (movie_idx : nat) (rated_movies : list nat) :
  rated_positions self rated_movies = [] ->
  _get_content_scores self movie_idx rated_movies = inr 0%float.
Proof.
  unfold _get_content_scores. intros H.
  destruct rated_movies as [ | rid rated ]; [ reflexivity | ].
  rewrite similarities_for_each, H. reflexivity.
Qed.

(** [j] is the position of the first row of the frame whose id is
    [movie_id]. *)
Definition first_row (df : list Movie.row) (movie_id j : nat) : Prop :=
  (exists m, nth_error df j = Some m /\ Movie.id m = movie_id) /\
  (forall j' m', j' < j -> nth_error df j' = Some m' ->
     Movie.id m' <> movie_id).

(** [v] is the entry of the matrix at row [i], column [j]. *)
Definition entry (a : ndarray) (i j : nat) (v : float) : Prop :=
  exists row, nth_error a i = Some row /\ nth_error row j = Some v.

Lemma index_of_combine_first (movie_id : nat) (df : list Movie.row)
    (start j : nat) :
  index_of movie_id (combine (seq start (length df)) df) = Some j ->
  exists k, j = start + k /\ first_row df movie_id k.
Proof.
  revert start. induction df as [ | m df IH ]; simpl; intros start H.
  - discriminate H.
  - destruct (Movie.id m =? movie_id) eqn:E.
    + inversion H; subst. exists 0. split; [ lia | ]. split.
      * exists m. split; [ reflexivity | apply Nat.eqb_eq, E ].
      * intros j' m' Hlt. lia.
    + destruct (IH (S start) H) as (k & -> & (m0 & Hk & Hid) & Hfirst).
      exists (S k). split; [ lia | ]. split.
      * exists m0. auto.
      * intros [ | j' ] m' Hlt Hn; simpl in Hn.
        -- inversion Hn; subst. apply Nat.eqb_neq, E.
        -- apply (Hfirst j' m'); [ lia | exact Hn ].
Qed.

Lemma index_of_combine_None (movie_id : nat) (df : list Movie.row)
    (start : nat) :
  index_of movie_id (combine (seq start (length df)) df) = None <->
  ~ In movie_id (map Movie.id df).
Proof.
  revert start. induction df as [ | m df IH ]; simpl; intros start.
  - tauto.
  - destruct (Movie.id m =? movie_id) eqn:E.
    + apply Nat.eqb_eq in E. split; [ discriminate | ].
      intros H. exfalso. apply H. left. exact E.
    + apply Nat.eqb_neq in E. rewrite IH. tauto.
Qed.

Lemma isin_true (x : nat) (l : list nat) : isin x l = true <-> In x l.
Proof.
  unfold isin. rewrite existsb_exists. split.
  - intros (y & Hy & E). apply Nat.eqb_eq in E. subst. exact Hy.
  - intros H. exists x. split; [ exact H | apply Nat.eqb_refl ].
Qed.

(** The positions the loop looks up: for each rated id that occurs in
    the movie frame, in the order of the ratings, the first row with
    that id. *)
Lemma rated_positions_first_rows (self : HybridRecommender)
    (rated_movies : list nat) :
  Forall2 (first_row (movies_df self))
    (filter (fun rated_movie_id =>
               isin rated_movie_id (map Movie.id (movies_df self)))
            rated_movies)
    (rated_positions self rated_movies).
Proof.
  unfold rated_positions.
  induction rated_movies as [ | rid rated IH ]; simpl.
  - constructor.
  - destruct (index_of rid (iterrows (movies_df self))) as [ j | ] eqn:E.
    + destruct (index_of_combine_first rid (movies_df self) 0 j E)
        as (k & -> & Hk).
      assert (Hin : isin rid (map Movie.id (movies_df self)) = true).
      { apply isin_true. destruct Hk as ((m & Hm & <-) & _).
        apply in_map. eapply nth_error_In. exact Hm. }
      rewrite Hin. simpl. constructor; assumption.
    + apply index_of_combine_None in E.
      destruct (isin rid (map Movie.id (movies_df self))) eqn:Hin.
      * apply isin_true in Hin. contradiction.
      * exact IH.
Qed.

Lemma rated_positions_nil (self : HybridRecommender)
    (rated_movies : list nat) :
  (forall rated_movie_id, In rated_movie_id rated_movies ->
     ~ In rated_movie_id (map Movie.id (movies_df self))) ->
  rated_positions self rated_movies = [].
Proof.
  unfold rated_positions.
  induction rated_movies as [ | rid rated IH ]; simpl; intros H.
  - reflexivity.
  - assert (E : index_of rid (iterrows (movies_df self)) = None).
    { apply index_of_combine_None. apply H. left. reflexivity. }
    rewrite E. simpl. apply IH. intros r Hr. apply H. right. exact Hr.
Qed.

Lemma getitem2_entry (a : ndarray) (i j : nat) (v : float) :
  getitem2 a i j = inr v -> entry a i j v.
Proof.
  unfold getitem2, entry.
  destruct (nth_error a i) as [ row | ]; [ | discriminate ].
  destruct (nth_error row j) as [ v' | ] eqn:E; [ | discriminate ].
  intros H. inversion H; subst. exists row. auto.
Qed.

(** A labelled row of the frame sits at its label. *)
Lemma iterrows_nth {A} (df : list A) (start i : nat) (x : A) :
  In (i, x) (combine (seq start (length df)) df) ->
  exists k, i = start + k /\ nth_error df k = Some x.
Proof.
  revert start. induction df as [ | y df IH ]; simpl; intros start H.
  - contradiction.
  - destruct H as [ H | H ].
    + inversion H; subst. exists 0. split; [ lia | reflexivity ].
    + destruct (IH (S start) H) as (k & -> & Hk).
      exists (S k). split; [ lia | exact Hk ].
Qed.

(** C4. The content score of every candidate is 5 times the mean of the
    similarity values read at the candidate's row of the matrix, one
    for each of the user's rated movie ids that occurs in the movie
    frame, in the order of the ratings, at the column of the first
    frame row with that id; rated ids that do not occur in the frame
    are skipped.  With no rated id in the frame the score is exactly 0
    and the scoring step returns, it does not raise. *)
Theorem content_score_is_scaled_mean
    (self : HybridRecommender) (user_id : nat)
    (recs : list recommendation) (i : nat) (r : recommendation) :
  recommendations self user_id = inr recs ->
  nth_error recs i = Some r ->
  let rated_movie_ids := map Rating.movie_id (user_ratings self user_id) in
  (exists labelled positions sims,
      nth_error (unrated_movies self rated_movie_ids) i = Some labelled /\
      nth_error (movies_df self) (fst labelled) = Some (snd labelled) /\
      rec_movie_id r = Movie.id (snd labelled) /\
      Forall2 (first_row (movies_df self))
        (filter (fun rated_movie_id =>
                   isin rated_movie_id (map Movie.id (movies_df self)))
                rated_movie_ids)
        positions /\
      Forall2 (entry (content_similarity self) (fst labelled))
        positions sims /\
      content_score r =
        match sims with
        | [] => 0%float
        | _ :: _ => (np_mean sims * 5)%float
        end) /\
  (forall movie_idx rated_movies,
      (forall rated_movie_id, In rated_movie_id rated_movies ->
         ~ In rated_movie_id (map Movie.id (movies_df self))) ->
      _get_content_scores self movie_idx rated_movies = inr 0%float).
Proof.
  intros Hrecs Hi rated_movie_ids. split.
  - pose proof (recommendations_scored self user_id recs Hrecs) as Hsc.
    destruct (Forall2_nth_error_r _ _ _ Hsc i r Hi)
      as (labelled & Hl & c & Hc & S).
    destruct S as (Hid & Hcs & _).
    destruct (_get_content_scores_inr self _ _ c Hc) as (sims & Hs & ->).
    exists labelled, (rated_positions self rated_movie_ids), sims.
    split; [ exact Hl | ]. split.
    { apply nth_error_In in Hl. unfold unrated_movies in Hl.
      apply filter_In in Hl. destruct Hl as [Hl _].
      destruct labelled as [lbl m]. unfold iterrows in Hl.
      destruct (iterrows_nth (movies_df self) 0 lbl m Hl) as (k & -> & Hk).
      exact Hk. }
    split; [ exact Hid | ].
    split; [ apply rated_positions_first_rows | ].
    split.
    { apply for_each_inr in Hs.
      eapply Forall2_impl; [ | exact Hs ].
      intros j v Hv. apply getitem2_entry, Hv. }
    rewrite Hcs. destruct sims; reflexivity.
  - intros movie_idx rated_movies Hnone.
    apply _get_content_scores_no_overlap.
    apply rated_positions_nil, Hnone.
Qed.

(* ------------------------------------------------------------------ *)
(** ** Collaborative score *)
(* ------------------------------------------------------------------ *)

Lemma recommendations_inl (self : HybridRecommender) (user_id : nat)
    (e : exn) :
  recommendations self user_id = inl e ->
  exists labelled,
    In labelled
       (unrated_movies self
          (map Rating.movie_id (user_ratings self user_id))) /\
    _get_content_scores self (fst labelled)
      (map Rating.movie_id (user_ratings self user_id)) = inl e.
Proof.
  unfold recommendations. intros H.
  apply for_each_inl in H. destruct H as (labelled & Hin & H).
  exists labelled. split; [ exact Hin | ].
  apply (score_movie_inl self user_id _ labelled e H).
Qed.

(** C5. The collaborative score is 3.0 when there is no model and when
    the prediction raises; building without a cached model from fewer
    than 100 ratings leaves no model; and a scoring pass can only be
    aborted by the content lookup of some candidate, never by a
    prediction. *)
Theorem collaborative_score_neutral_default
    (self : HybridRecommender) (user_id movie_id : nat) :
  (svd_model self = PyNone ->
   _get_collaborative_score self user_id movie_id = 3.0%float) /\
  (forall e, predict_est (svd_model self) user_id movie_id = inl e ->
   _get_collaborative_score self user_id movie_id = 3.0%float) /\
  (forall cache ratings,
     svd_model_pkl cache = None -> length ratings < 100 ->
     _build_collaborative_model cache ratings = (inr PyNone, cache)) /\
  (forall e, recommendations self user_id = inl e ->
     exists labelled,
       In labelled
          (unrated_movies self
             (map Rating.movie_id (user_ratings self user_id))) /\
       _get_content_scores self (fst labelled)
         (map Rating.movie_id (user_ratings self user_id)) = inl e).
Proof.
  split; [ | split; [ | split ] ].
  - unfold _get_collaborative_score. intros ->. reflexivity.
  - unfold _get_collaborative_score. intros e H.
    destruct (svd_model self); try reflexivity.
    rewrite H. reflexivity.
  - intros cache ratings Hc Hlen. unfold _build_collaborative_model.
    rewrite Hc. apply Nat.ltb_lt in Hlen. rewrite Hlen. reflexivity.
  - apply recommendations_inl.
Qed.

(* ------------------------------------------------------------------ *)
(** ** Frames, groups and samples *)
(* ------------------------------------------------------------------ *)

Lemma insert_key_In (k k' : nat) (l : list nat) :
  In k (insert_key k' l) <-> k = k' \/ In k l.
Proof.
  induction l as [ | x l IH ]; simpl.
  - intuition.
  - destruct (k' <? x) eqn:Hlt; simpl.
    + intuition.
    + destruct (k' =? x) eqn:Heq; simpl.
      * apply Nat.eqb_eq in Heq. subst. intuition.
      * rewrite IH. intuition.
Qed.

Lemma groupby_keys_In (k : nat) (l : list nat) :
  In k (groupby_keys l) <-> In k l.
Proof.
  induction l as [ | x l IH ]; simpl.
  - reflexivity.
  - rewrite insert_key_In, IH. intuition.
Qed.

Lemma insert_key_sorted (k : nat) (l : list nat) :
  StronglySorted lt l -> StronglySorted lt (insert_key k l).
Proof.
  induction 1 as [ | x l S IH Hx ]; simpl.
  - repeat constructor.
  - destruct (k <? x) eqn:Hlt.
    + apply Nat.ltb_lt in Hlt. constructor.
      * constructor; assumption.
      * constructor; [ exact Hlt | ].
        eapply Forall_impl; [ | exact Hx ]. intros y Hy. simpl in Hy. lia.
    + destruct (k =? x) eqn:Heq.
      * constructor; assumption.
      * apply Nat.ltb_ge in Hlt. apply Nat.eqb_neq in Heq.
        constructor; [ exact IH | ].
        rewrite Forall_forall in Hx |- *. intros y Hy.
        apply insert_key_In in Hy. destruct Hy as [-> | Hy].
        -- lia.
        -- apply Hx, Hy.
Qed.

Lemma groupby_keys_sorted (l : list nat) :
  StronglySorted lt (groupby_keys l).
Proof.
  induction l as [ | x l IH ]; simpl.
  - constructor.
  - apply insert_key_sorted, IH.
Qed.

Lemma StronglySorted_lt_NoDup (l : list nat) :
  StronglySorted lt l -> NoDup l.
Proof.
  induction 1 as [ | x l S IH Hx ].
  - constructor.
  - constructor; [ | exact IH ].
    intros Hin. rewrite Forall_forall in Hx. specialize (Hx x Hin). lia.
Qed.

Lemma groupby_keys_NoDup (l : list nat) : NoDup (groupby_keys l).
Proof.
  apply StronglySorted_lt_NoDup, groupby_keys_sorted.
Qed.

Lemma combine_seq_snd {A} (df : list A) (start : nat) :
  map snd (combine (seq start (length df)) df) = df.
Proof.
  revert start. induction df as [ | x df IH ]; simpl; intros start.
  - reflexivity.
  - rewrite IH. reflexivity.
Qed.

Lemma iterrows_snd {A} (df : list A) : map snd (iterrows df) = df.
Proof.
  apply combine_seq_snd.
Qed.

Lemma isin_false (x : nat) (l : list nat) :
  isin x l = false <-> ~ In x l.
Proof.
  unfold isin. split.
  - intros H Hin.
    assert (E : existsb (Nat.eqb x) l = true).
    { apply existsb_exists. exists x. split; [ exact Hin | ].
      apply Nat.eqb_refl. }
    congruence.
  - intros H. destruct (existsb (Nat.eqb x) l) eqn:E; [ | reflexivity ].
    apply existsb_exists in E. destruct E as (y & Hy & Hxy).
    apply Nat.eqb_eq in Hxy. subst. contradiction.
Qed.

Lemma map_filter_comm {A B} (f : A -> B) (p : B -> bool) (l : list A) :
  map f (filter (fun x => p (f x)) l) = filter p (map f l).
Proof.
  induction l as [ | x l IH ]; simpl.
  - reflexivity.
  - destruct (p (f x)); simpl; rewrite IH; reflexivity.
Qed.

(** Ids of the candidates, in the order the loop visits them: the movie
    frame's ids with the rated ones removed. *)
Lemma unrated_movies_ids (self : HybridRecommender) (rated : list nat) :
  map (fun im => Movie.id (snd im)) (unrated_movies self rated) =
  filter (fun movie_id => negb (isin movie_id rated))
         (map Movie.id (movies_df self)).
Proof.
  unfold unrated_movies.
  rewrite (map_filter_comm (fun im => Movie.id (snd im))
             (fun movie_id => negb (isin movie_id rated))).
  rewrite <- (iterrows_snd (movies_df self)) at 2.
  rewrite map_map. reflexivity.
Qed.

Lemma Forall2_map_eq {A B C} (f : A -> C) (g : B -> C) (l : list A)
    (rs : list B) :
  Forall2 (fun x r => g r = f x) l rs -> map g rs = map f l.
Proof.
  induction 1 as [ | x r l rs Hxr _ IH ]; simpl.
  - reflexivity.
  - rewrite Hxr, IH. reflexivity.
Qed.

Lemma recommendations_ids (self : HybridRecommender) (user_id : nat)
    (recs : list recommendation) :
  recommendations self user_id = inr recs ->
  map rec_movie_id recs =
  filter (fun movie_id =>
            negb (isin movie_id
                    (map Rating.movie_id (user_ratings self user_id))))
         (map Movie.id (movies_df self)).
Proof.
  intros H. rewrite <- unrated_movies_ids.
  apply Forall2_map_eq.
  eapply Forall2_impl; [ | apply recommendations_scored; exact H ].
  intros labelled r (c & _ & Hid & _). exact Hid.
Qed.

Lemma take_inr {A} (df : list A) (positions : list nat) (rows : list A) :
  take df positions = inr rows ->
  Forall2 (fun i r => nth_error df i = Some r) positions rows.
Proof.
  revert rows. induction positions as [ | i rest IH ]; simpl; intros rows H.
  - inversion H. constructor.
  - destruct (nth_error df i) as [ r | ] eqn:Hi; [ | discriminate H ].
    apply bind_inr in H. destruct H as (rs & Hrs & H).
    inversion H; subst. constructor; auto.
Qed.

Lemma take_in_bounds {A} (df : list A) (positions : list nat) :
  Forall (fun i => i < length df) positions ->
  exists rows, take df positions = inr rows.
Proof.
  induction 1 as [ | i rest Hi _ IH ]; simpl.
  - exists []. reflexivity.
  - destruct (nth_error df i) as [ r | ] eqn:E.
    + destruct IH as (rows & ->). exists (r :: rows). reflexivity.
    + apply nth_error_None in E. lia.
Qed.

(* ------------------------------------------------------------------ *)
(** ** The two paths of [get_recommendations] *)
(* ------------------------------------------------------------------ *)

Lemma get_recommendations_hybrid (self : HybridRecommender)
    (random_state : nat -> nat -> list nat) (user_id n : nat) :
  user_ratings self user_id <> [] ->
  get_recommendations self random_state user_id n =
  (recs <- recommendations self user_id ;;
   ret (map rec_movie_id (firstn n (list_sort hybrid_score true recs)))).
Proof.
  unfold get_recommendations. intros H.
  destruct (user_ratings self user_id); [ contradiction | reflexivity ].
Qed.

Lemma get_recommendations_cold_start (self : HybridRecommender)
    (random_state : nat -> nat -> list nat) (user_id n : nat) :
  user_ratings self user_id = [] ->
  get_recommendations self random_state user_id n =
  _get_popular_movies self random_state n.
Proof.
  unfold get_recommendations. intros ->. reflexivity.
Qed.

(** A user without a row in the rating frame has no ratings. *)
Lemma user_ratings_absent (self : HybridRecommender) (user_id : nat) :
  (forall rt, In rt (ratings_df self) -> Rating.user_id rt <> user_id) ->
  user_ratings self user_id = [].
Proof.
  unfold user_ratings. intros H.
  induction (ratings_df self) as [ | rt l IH ]; simpl.
  - reflexivity.
  - destruct (Rating.user_id rt =? user_id) eqn:E.
    + apply Nat.eqb_eq in E. exfalso. apply (H rt); simpl; auto.
    + apply IH. intros rt' Hin. apply H. simpl. auto.
Qed.

Lemma firstn_In {A} (n : nat) (l : list A) (x : A) :
  In x (firstn n l) -> In x l.
Proof.
  revert l. induction n as [ | n IH ]; intros [ | y l ]; simpl; try tauto.
  intros [-> | H]; auto.
Qed.

Lemma firstn_NoDup {A} (n : nat) (l : list A) :
  NoDup l -> NoDup (firstn n l).
Proof.
  revert l. induction n as [ | n IH ]; intros [ | y l ]; simpl; intros H;
    try constructor.
  - inversion H; subst. intros Hin. apply firstn_In in Hin. contradiction.
  - inversion H; subst. apply IH. assumption.
Qed.

Lemma hybrid_result_incl (self : HybridRecommender)
    (random_state : nat -> nat -> list nat) (user_id n : nat)
    (res : list nat) :
  user_ratings self user_id <> [] ->
  get_recommendations self random_state user_id n = inr res ->
  exists recs,
    recommendations self user_id = inr recs /\
    res = map rec_movie_id (firstn n (list_sort hybrid_score true recs)).
Proof.
  intros Hu H. rewrite get_recommendations_hybrid in H by exact Hu.
  apply bind_inr in H. destruct H as (recs & Hrecs & H).
  exists recs. split; [ exact Hrecs | ]. inversion H. reflexivity.
Qed.

(** C2. On the hybrid path no returned id is the movie of a rating the
    requesting user has in the snapshot. *)
Theorem hybrid_path_excludes_rated
    (self : HybridRecommender) (random_state : nat -> nat -> list nat)
    (user_id n : nat) (res : list nat) (rt : Rating.row) :
  user_ratings self user_id <> [] ->
  get_recommendations self random_state user_id n = inr res ->
  In rt (ratings_df self) ->
  Rating.user_id rt = user_id ->
  ~ In (Rating.movie_id rt) res.
Proof.
  intros Hu H Hrt Huser Hin.
  destruct (hybrid_result_incl self random_state user_id n res Hu H)
    as (recs & Hrecs & ->).
  rewrite <- firstn_map in Hin. apply firstn_In in Hin.
  assert (Hin' : In (Rating.movie_id rt) (map rec_movie_id recs)).
  { eapply Permutation_in; [ | exact Hin ].
    apply Permutation_map, list_sort_perm. }
  rewrite (recommendations_ids self user_id recs Hrecs) in Hin'.
  apply filter_In in Hin'. destruct Hin' as [_ Hneg].
  apply negb_true_iff, isin_false in Hneg. apply Hneg.
  apply in_map. unfold user_ratings. apply filter_In.
  split; [ exact Hrt | ]. apply Nat.eqb_eq, Huser.
Qed.

(** C7. On the hybrid path the returned ids are the first [n] ids of the
    scored candidates put in descending order of hybrid score, where
    candidates with tied scores keep the order of the scoring pass,
    which is the order of the movie frame; the result carries ids
    only. *)
Theorem hybrid_path_ranked_descending_stable
    (self : HybridRecommender) (random_state : nat -> nat -> list nat)
    (user_id n : nat) (recs : list recommendation) :
  user_ratings self user_id <> [] ->
  recommendations self user_id = inr recs ->
  keys_not_nan hybrid_score recs ->
  exists ranked,
    get_recommendations self random_state user_id n =
      inr (map rec_movie_id (firstn n ranked)) /\
    Permutation ranked recs /\
    StronglySorted (not_below hybrid_score) ranked /\
    (forall a, In a recs ->
       filter (tied hybrid_score a) ranked =
       filter (tied hybrid_score a) recs) /\
    map rec_movie_id recs =
      filter (fun movie_id =>
                negb (isin movie_id
                        (map Rating.movie_id (user_ratings self user_id))))
             (map Movie.id (movies_df self)).
Proof.
  intros Hu Hrecs Hnan.
  exists (list_sort hybrid_score true recs).
  split; [ | split; [ | split; [ | split ] ] ].
  - rewrite get_recommendations_hybrid by exact Hu.
    rewrite Hrecs. reflexivity.
  - apply list_sort_perm.
  - apply list_sort_reverse_sorted, Hnan.
  - intros a Ha. apply list_sort_reverse_stable; [ | exact Hnan ].
    unfold keys_not_nan in Hnan. rewrite Forall_forall in Hnan.
    apply Hnan, Ha.
  - apply recommendations_ids, Hrecs.
Qed.

(* ------------------------------------------------------------------ *)
(** ** Cold start *)
(* ------------------------------------------------------------------ *)

Lemma popularity_ids (self : HybridRecommender) :
  map fst (popularity self) =
  groupby_keys (map Rating.movie_id (ratings_df self)).
Proof.
  unfold popularity. rewrite map_map. simpl. apply map_id.
Qed.

Lemma popularity_In (self : HybridRecommender) (movie_id : nat) (s : float) :
  In (movie_id, s) (popularity self) ->
  (exists rt, In rt (ratings_df self) /\ Rating.movie_id rt = movie_id) /\
  s = (float_of_nat (length (group self movie_id)) *
       groupby_mean (map Rating.rating (group self movie_id)))%float.
Proof.
  unfold popularity. intros H. apply in_map_iff in H.
  destruct H as (k & Hk & Hin). inversion Hk; subst. split.
  - apply groupby_keys_In, in_map_iff in Hin.
    destruct Hin as (rt & Hrt & Hin). exists rt. auto.
  - reflexivity.
Qed.

Lemma _get_popular_movies_ranked (self : HybridRecommender)
    (random_state : nat -> nat -> list nat) (n : nat) :
  ratings_df self <> [] ->
  _get_popular_movies self random_state n =
  inr (map fst (firstn n (sort_values_descending (popularity self)))).
Proof.
  unfold _get_popular_movies. intros H.
  destruct (ratings_df self); [ contradiction | reflexivity ].
Qed.

Lemma _get_popular_movies_sample (self : HybridRecommender)
    (random_state : nat -> nat -> list nat) (n : nat) :
  ratings_df self = [] ->
  _get_popular_movies self random_state n =
  (rows <- sample random_state (movies_df self) n ;;
   ret (map Movie.id rows)).
Proof.
  unfold _get_popular_movies. intros ->. reflexivity.
Qed.

Lemma Forall2_length_eq {A B} (R : A -> B -> Prop) (l : list A)
    (rs : list B) :
  Forall2 R l rs -> length rs = length l.
Proof.
  induction 1; simpl; congruence.
Qed.

Lemma sample_inr {A} (random_state : nat -> nat -> list nat)
    (df : list A) (n : nat) :
  choice_ok random_state -> n <= length df ->
  exists rows,
    sample random_state df n = inr rows /\
    length rows = n /\
    NoDup (random_state (length df) n) /\
    Forall2 (fun i r => nth_error df i = Some r)
            (random_state (length df) n) rows.
Proof.
  intros Hok Hn. unfold sample.
  destruct (length df <? n) eqn:E.
  - apply Nat.ltb_lt in E. lia.
  - destruct (Hok (length df) n Hn) as (Hlen & Hnd & Hb).
    destruct (take_in_bounds df _ Hb) as (rows & Hrows).
    exists rows. split; [ exact Hrows | ].
    pose proof (take_inr df _ rows Hrows) as HF.
    split; [ | split; assumption ].
    rewrite (Forall2_length_eq _ _ _ HF). exact Hlen.
Qed.

(** C6 (as amended). A user without any row in the rating frame, known
    or not, gets the cold-start list and no error for being unknown.
    With a non-empty rating frame that list is the first [n] ids of the
    popularity table in descending order of its values, and the table
    has one entry, count times mean rating, for each movie id that
    occurs in the rating frame (movies nobody rated are not in it).
    With an empty rating frame and [n] at most the size of the movie
    frame it is the ids of [n] rows drawn at distinct positions. *)
Theorem cold_start_popularity_or_sample
    (self : HybridRecommender) (random_state : nat -> nat -> list nat)
    (user_id n : nat) :
  (forall rt, In rt (ratings_df self) -> Rating.user_id rt <> user_id) ->
  sort_values_spec ->
  choice_ok random_state ->
  (ratings_df self <> [] ->
   exists ranked,
     get_recommendations self random_state user_id n =
       inr (map fst (firstn n ranked)) /\
     Permutation ranked (popularity self) /\
     (keys_not_nan snd (popularity self) ->
      StronglySorted (not_below snd) ranked)) /\
  (map fst (popularity self) =
     groupby_keys (map Rating.movie_id (ratings_df self)) /\
   forall movie_id s, In (movie_id, s) (popularity self) ->
     (exists rt, In rt (ratings_df self) /\
                 Rating.movie_id rt = movie_id) /\
     s = (float_of_nat (length (group self movie_id)) *
          groupby_mean (map Rating.rating (group self movie_id)))%float) /\
  (ratings_df self = [] -> n <= length (movies_df self) ->
   exists positions rows,
     get_recommendations self random_state user_id n =
       inr (map Movie.id rows) /\
     length rows = n /\
     NoDup positions /\
     Forall2 (fun i r => nth_error (movies_df self) i = Some r)
             positions rows).
Proof.
  intros Habs Hsort Hok.
  pose proof (user_ratings_absent self user_id Habs) as Hcold.
  split; [ | split ].
  - intros Hne. exists (sort_values_descending (popularity self)).
    destruct (Hsort (popularity self)) as (Hperm & Hsorted).
    split; [ | split ].
    + rewrite get_recommendations_cold_start by exact Hcold.
      apply _get_popular_movies_ranked, Hne.
    + exact Hperm.
    + exact Hsorted.
  - split; [ apply popularity_ids | apply popularity_In ].
  - intros Hempty Hn.
    destruct (sample_inr random_state (movies_df self) n Hok Hn)
      as (rows & Hrows & Hlen & Hnd & HF).
    exists (random_state (length (movies_df self)) n), rows.
    split; [ | split; [ | split ] ]; try assumption.
    rewrite get_recommendations_cold_start by exact Hcold.
    rewrite _get_popular_movies_sample by exact Hempty.
    rewrite Hrows. reflexivity.
Qed.

(** C1 (the failing case). With an empty rating frame, asking for more
    recommendations than the movie frame has rows raises [ValueError]
    instead of returning every movie. *)
Theorem random_fallback_raises_beyond_catalog
    (self : HybridRecommender) (random_state : nat -> nat -> list nat)
    (user_id n : nat) :
  ratings_df self = [] ->
  length (movies_df self) < n ->
  get_recommendations self random_state user_id n = inl ValueError.
Proof.
  intros Hempty Hn. unfold get_recommendations, user_ratings.
  rewrite Hempty. simpl. unfold _get_popular_movies.
  rewrite Hempty. simpl. unfold sample.
  apply Nat.ltb_lt in Hn. rewrite Hn. reflexivity.
Qed.

(** C10. With a non-empty rating frame the result does not depend on the
    random generator: it is a function of the engine state, the user and
    [n] alone. *)
Theorem get_recommendations_deterministic
    (self : HybridRecommender)
    (random_state random_state' : nat -> nat -> list nat)
    (user_id n : nat) :
  ratings_df self <> [] ->
  get_recommendations self random_state user_id n =
  get_recommendations self random_state' user_id n.
Proof.
  intros Hne. unfold get_recommendations.
  destruct (length (user_ratings self user_id) =? 0); [ | reflexivity ].
  rewrite !_get_popular_movies_ranked by exact Hne. reflexivity.
Qed.

(* ------------------------------------------------------------------ *)
(** ** Shape of the returned list *)
(* ------------------------------------------------------------------ *)

(** The movie frame has a primary key, the rating frame a foreign key
    into it. *)
Definition snapshots_ok (self : HybridRecommender) : Prop :=
  NoDup (map Movie.id (movies_df self)) /\
  forall rt, In rt (ratings_df self) ->
    In (Rating.movie_id rt) (map Movie.id (movies_df self)).

Lemma nth_error_ids_inj (df : list Movie.row) (i j : nat)
    (r r' : Movie.row) :
  NoDup (map Movie.id df) ->
  nth_error df i = Some r -> nth_error df j = Some r' ->
  Movie.id r = Movie.id r' -> i = j.
Proof.
  intros Hnd Hi Hj Hid.
  rewrite NoDup_nth_error in Hnd. apply Hnd.
  - rewrite length_map. apply nth_error_Some. congruence.
  - rewrite !nth_error_map, Hi, Hj. simpl. congruence.
Qed.

Lemma take_NoDup_ids (df : list Movie.row) (positions : list nat)
    (rows : list Movie.row) :
  NoDup (map Movie.id df) -> NoDup positions ->
  Forall2 (fun i r => nth_error df i = Some r) positions rows ->
  NoDup (map Movie.id rows).
Proof.
  intros Hdf Hpos HF. induction HF as [ | i r positions rows Hi HF IH ];
    simpl.
  - constructor.
  - inversion Hpos as [ | ? ? Hnotin Hpos' ]; subst. constructor.
    + intros Hin. apply in_map_iff in Hin.
      destruct Hin as (r' & Hid & Hin).
      destruct (Forall2_In_r _ _ _ HF r' Hin) as (j & Hj & Hnth).
      assert (i = j) by (eapply nth_error_ids_inj; eauto).
      subst. contradiction.
    + apply IH, Hpos'.
Qed.

(** The parts of the result contract that hold on every path that
    returns: at most [n] ids, no id twice, every id in the movie
    frame. *)
Lemma get_recommendations_well_formed
    (self : HybridRecommender) (random_state : nat -> nat -> list nat)
    (user_id n : nat) (res : list nat) :
  sort_values_spec -> choice_ok random_state -> snapshots_ok self ->
  get_recommendations self random_state user_id n = inr res ->
  length res <= n /\
  NoDup res /\
  (forall movie_id, In movie_id res ->
     In movie_id (map Movie.id (movies_df self))).
Proof.
  intros Hsort Hok (Hpk & Hfk) H.
  destruct (user_ratings self user_id) as [ | rt0 urs ] eqn:Hur.
  - rewrite get_recommendations_cold_start in H by exact Hur.
    destruct (ratings_df self) as [ | rt1 rts ] eqn:Hr.
    + rewrite _get_popular_movies_sample in H by exact Hr.
      apply bind_inr in H. destruct H as (rows & Hrows & H).
      inversion H; subst; clear H.
      destruct (Nat.le_gt_cases n (length (movies_df self))) as [Hn | Hn].
      * destruct (sample_inr random_state (movies_df self) n Hok Hn)
          as (rows' & Hrows' & Hlen & Hnd & HF).
        rewrite Hrows in Hrows'. inversion Hrows'; subst rows'.
        split; [ rewrite length_map; lia | ].
        split; [ eapply take_NoDup_ids; eauto | ].
        intros movie_id Hin. apply in_map_iff in Hin.
        destruct Hin as (r & Hid & Hin). subst.
        destruct (Forall2_In_r _ _ _ HF r Hin) as (j & _ & Hnth).
        apply in_map. eapply nth_error_In. exact Hnth.
      * unfold sample in Hrows. apply Nat.ltb_lt in Hn.
        rewrite Hn in Hrows. discriminate Hrows.
    + assert (Hne : ratings_df self <> []) by (rewrite Hr; discriminate).
      rewrite _get_popular_movies_ranked in H by exact Hne.
      inversion H; subst; clear H.
      destruct (Hsort (popularity self)) as (Hperm & _).
      split; [ rewrite length_map; apply firstn_le_length | ].
      assert (Hp : Permutation
                     (map fst (sort_values_descending (popularity self)))
                     (groupby_keys
                        (map Rating.movie_id (ratings_df self)))).
      { rewrite <- popularity_ids. apply Permutation_map, Hperm. }
      rewrite <- firstn_map. split.
      * apply firstn_NoDup. eapply Permutation_NoDup.
        -- apply Permutation_sym, Hp.
        -- apply groupby_keys_NoDup.
      * intros movie_id Hin. apply firstn_In in Hin.
        apply (Permutation_in _ Hp) in Hin.
        apply groupby_keys_In, in_map_iff in Hin.
        destruct Hin as (rt & <- & Hin). apply Hfk. rewrite <- Hr. exact Hin.
  - assert (Hne : user_ratings self user_id <> [])
      by (rewrite Hur; discriminate).
    destruct (hybrid_result_incl self random_state user_id n res Hne H)
      as (recs & Hrecs & ->).
    split; [ rewrite length_map; apply firstn_le_length | ].
    assert (Hp : Permutation
                   (map rec_movie_id (list_sort hybrid_score true recs))
                   (map rec_movie_id recs)).
    { apply Permutation_map, list_sort_perm. }
    pose proof (recommendations_ids self user_id recs Hrecs) as Hids.
    rewrite <- firstn_map. split.
    + apply firstn_NoDup. eapply Permutation_NoDup.
      * apply Permutation_sym, Hp.
      * rewrite Hids. apply NoDup_filter, Hpk.
    + intros movie_id Hin. apply firstn_In in Hin.
      apply (Permutation_in _ Hp) in Hin. rewrite Hids in Hin.
      apply filter_In in Hin. apply Hin.
Qed.

(** On the hybrid path, asking for at least as many ids as there are
    candidates returns every candidate once. *)
Lemma hybrid_path_returns_all_candidates
    (self : HybridRecommender) (random_state : nat -> nat -> list nat)
    (user_id n : nat) (recs : list recommendation) :
  user_ratings self user_id <> [] ->
  recommendations self user_id = inr recs ->
  length recs <= n ->
  exists res,
    get_recommendations self random_state user_id n = inr res /\
    Permutation res (map rec_movie_id recs).
Proof.
  intros Hu Hrecs Hn.
  exists (map rec_movie_id (list_sort hybrid_score true recs)). split.
  - rewrite get_recommendations_hybrid by exact Hu.
    rewrite Hrecs. unfold bind. rewrite firstn_all2; [ reflexivity | ].
    rewrite (Permutation_length (list_sort_perm _ hybrid_score true recs)).
    exact Hn.
  - apply Permutation_map, list_sort_perm.
Qed.

(* ------------------------------------------------------------------ *)
(** ** Construction and the cache *)
(* ------------------------------------------------------------------ *)

(** The (user, movie, rating) triples handed to surprise. *)
Definition rating_triples (ratings : list Rating.row)
  : list (nat * nat * float) :=
  map (fun r => (Rating.user_id r, Rating.movie_id r, Rating.rating r))
      ratings.

(** C8 (as amended). A cached artifact of either kind is returned as it
    is, whatever the snapshot, and the cache is left untouched.  Without
    a cached content model the model is built from the movie frame and
    saved.  Without a cached collaborative model the model is fitted and
    saved when the rating frame has at least 100 rows; with fewer rows
    there is no model and nothing is saved. *)
Theorem cache_hit_loads_cache_miss_builds
    (cache : cache_dir) (movies : list Movie.row)
    (ratings : list Rating.row) :
  (forall d, content_model_pkl cache = Some (Pickle (PyDict d)) ->
     _build_content_model cache movies = (inr d, cache)) /\
  (forall o, svd_model_pkl cache = Some (Pickle o) ->
     _build_collaborative_model cache ratings = (inr o, cache)) /\
  (forall v m,
     content_model_pkl cache = None ->
     fit_transform (map content movies) = inr (v, m) ->
     let d := {| cd_vectorizer := v;
                 cd_matrix := m;
                 cd_similarity := cosine_similarity m m |} in
     _build_content_model cache movies =
       (inr d, {| content_model_pkl := Some (Pickle (PyDict d));
                  svd_model_pkl := svd_model_pkl cache |})) /\
  (svd_model_pkl cache = None -> 100 <= length ratings ->
   let model := PySVD (svd_fit (rating_triples ratings)) in
   _build_collaborative_model cache ratings =
     (inr model, {| content_model_pkl := content_model_pkl cache;
                    svd_model_pkl := Some (Pickle model) |})) /\
  (svd_model_pkl cache = None -> length ratings < 100 ->
   _build_collaborative_model cache ratings = (inr PyNone, cache)).
Proof.
  split; [ | split; [ | split; [ | split ] ] ].
  - intros d H. unfold _build_content_model. rewrite H. reflexivity.
  - intros o H. unfold _build_collaborative_model. rewrite H. reflexivity.
  - intros v m H Hfit. unfold _build_content_model.
    rewrite H, Hfit. reflexivity.
  - intros H Hlen. unfold _build_collaborative_model. rewrite H.
    apply Nat.ltb_ge in Hlen. rewrite Hlen. reflexivity.
  - intros H Hlen. unfold _build_collaborative_model. rewrite H.
    apply Nat.ltb_lt in Hlen. rewrite Hlen. reflexivity.
Qed.

(** C9. When loading a cache file raises, construction raises the same
    exception: for the content model at once and with the cache
    untouched; for the collaborative model after the content step, with
    the offending file still in place.  No model is built in its
    stead. *)
Theorem unloadable_cache_raises
    (cache : cache_dir) (connection : database) (f : file) (e : exn) :
  pickle_load f = inl e ->
  (content_model_pkl cache = Some f ->
   __init__ cache connection = (inl e, cache)) /\
  (svd_model_pkl cache = Some f ->
   forall d cache1,
     _build_content_model cache (recommender_movie connection)
       = (inr d, cache1) ->
     __init__ cache connection = (inl e, cache1) /\
     svd_model_pkl cache1 = Some f).
Proof.
  intros Hload. split.
  - intros H. unfold __init__, _load_data, _build_content_model.
    rewrite H, Hload. reflexivity.
  - intros H d cache1 Hc.
    assert (Hs : svd_model_pkl cache1 = Some f).
    { unfold _build_content_model in Hc.
      destruct (content_model_pkl cache) as [ g | ].
      - inversion Hc; subst. exact H.
      - destruct (fit_transform (map content (recommender_movie connection)))
          as [ e' | [v m] ]; inversion Hc; subst; exact H. }
    split; [ | exact Hs ].
    unfold __init__, _load_data. rewrite Hc.
    unfold _build_collaborative_model. rewrite Hs, Hload. reflexivity.
Qed.

(** The files whose loading raises, and what they raise. *)
Lemma pickle_load_inl (f : file) (e : exn) :
  pickle_load f = inl e <->
  (f = Unreadable /\ e = OSError) \/ (f = Garbage /\ e = UnpicklingError).
Proof.
  destruct f; simpl; split.
  - intros H. inversion H. auto.
  - intros [[_ ->] | [H _]]; [ reflexivity | discriminate H ].
  - intros H. inversion H. auto.
  - intros [[H _] | [_ ->]]; [ discriminate H | reflexivity ].
  - intros H. discriminate H.
  - intros [[H _] | [H _]]; discriminate H.
Qed.

End Engine.

Arguments HybridRecommender : clear implicits.
Arguments movies_df {vectorizer tfidf} _.
Arguments ratings_df {vectorizer tfidf} _.
Arguments watchlist_df {vectorizer tfidf} _.
Arguments content_similarity {vectorizer tfidf} _.
Arguments svd_model {vectorizer tfidf} _.
Arguments PyNone {vectorizer tfidf}.
Arguments PyDict {vectorizer tfidf} d.
Arguments PySVD {vectorizer tfidf} predict.
Arguments PyOther {vectorizer tfidf}.
Arguments Unreadable {vectorizer tfidf}.
Arguments Garbage {vectorizer tfidf}.
Arguments Pickle {vectorizer tfidf} o.
Arguments content_model_pkl {vectorizer tfidf} _.
Arguments svd_model_pkl {vectorizer tfidf} _.
Arguments pickle_load {vectorizer tfidf} f.
Arguments _build_content_model {vectorizer tfidf} _ _ cache movies.
Arguments _build_collaborative_model {vectorizer tfidf} _ cache ratings.
Arguments __init__ {vectorizer tfidf} _ _ _ cache connection.
Arguments _get_content_scores {vectorizer tfidf} _ self movie_idx rated_movies.
Arguments _get_collaborative_score {vectorizer tfidf} self user_id movie_id.
Arguments _is_in_watchlist {vectorizer tfidf} self user_id movie_id.
Arguments _get_popular_movies {vectorizer tfidf} _ _ self random_state n.
Arguments predict_est {vectorizer tfidf} model user_id movie_id.
Arguments popularity {vectorizer tfidf} _ self.
Arguments user_ratings {vectorizer tfidf} self user_id.
Arguments unrated_movies {vectorizer tfidf} self rated_movie_ids.
Arguments rated_positions {vectorizer tfidf} self rated_movies.
Arguments recommendations {vectorizer tfidf} _ self user_id.
Arguments get_recommendations {vectorizer tfidf} _ _ _ self random_state
  user_id n.
Arguments with_watchlist {vectorizer tfidf} self watchlist.
Arguments snapshots_ok {vectorizer tfidf} self.

(* ================================================================== *)
(** * Running the engine

    Stand-ins for the library functions, to evaluate the definitions on
    concrete snapshots. *)
(* ================================================================== *)

Module Run.

(** A vectorizer that keeps nothing and a matrix that only records how
    many documents it was fitted on. *)
Definition fit_transform (docs : list string) : result (unit * nat) :=
  match docs with
  | [] => raise ValueError
  | _ :: _ => ret (tt, length docs)
  end.

(** Every document is similar to itself only. *)
Definition cosine_similarity (m _ : nat) : ndarray :=
  map (fun i => map (fun j => if i =? j then 1%float else 0%float)
                    (seq 0 m))
      (seq 0 m).

(** A model that predicts 3.5 for a known user and raises otherwise. *)
Definition svd_fit (data : list (nat * nat * float)) (user_id _ : nat)
  : result float :=
  if existsb (fun t => fst (fst t) =? user_id) data
  then ret 3.5%float
  else raise PredictionError.

(** Sum from the left, then divide. *)
Definition mean (l : list float) : float :=
  (fold_left PrimFloat.add l 0 / float_of_nat (length l))%float.

(** A stable descending sort is one admissible [sort_values]. *)
Definition sort_values_descending (s : list (nat * float))
  : list (nat * float) :=
  list_sort snd true s.

(** Two generators: the first rows, and the last rows. *)
Definition first_rows (pop size : nat) : list nat := seq 0 size.
Definition last_rows (pop size : nat) : list nat := seq (pop - size) size.

Definition engine : Type := HybridRecommender unit nat.

Definition get_recommendations (self : engine)
    (random_state : nat -> nat -> list nat) (user_id n : nat)
  : result (list nat) :=
  get_recommendations mean mean sort_values_descending self random_state
    user_id n.

Definition movie (id : nat) : Movie.row :=
  Movie.mk id EmptyString None None id.

Definition rate (id user_id movie_id : nat) (rating : float) : Rating.row :=
  Rating.mk id user_id movie_id rating 0.

(** Catalog A, B, C (ids 1, 2, 3); user 7 rated A with 4.5;
    similarity(A, B) = 0.8, similarity(A, C) = 0.1; no model. *)
Definition scenario (watchlist : list Watchlist.row) : engine :=
  {| movies_df := [movie 1; movie 2; movie 3];
     ratings_df := [rate 1 7 1 4.5];
     watchlist_df := watchlist;
     tfidf_vectorizer := tt;
     tfidf_matrix := 3;
     content_similarity :=
       [[1; 0.8; 0.1]; [0.8; 1; 0.3]; [0.1; 0.3; 1]]%float;
     svd_model := PyNone |}.

(** Two movies and no rating at all. *)
Definition unrated_catalog : engine :=
  {| movies_df := [movie 1; movie 2];
     ratings_df := [];
     watchlist_df := [];
     tfidf_vectorizer := tt;
     tfidf_matrix := 2;
     content_similarity := cosine_similarity 2 2;
     svd_model := PyNone |}.

Definition empty_cache : cache_dir unit nat :=
  {| content_model_pkl := None; svd_model_pkl := None |}.

End Run.

(* ================================================================== *)
(** * The theorems at concrete snapshots *)
(* ================================================================== *)

Lemma run_sort_values_spec : sort_values_spec Run.sort_values_descending.
Proof.
  intros s. unfold Run.sort_values_descending. split.
  - apply list_sort_perm.
  - apply list_sort_reverse_sorted.
Qed.

Lemma first_rows_ok : choice_ok Run.first_rows.
Proof.
  intros pop size Hle. unfold Run.first_rows. split; [ | split ].
  - apply length_seq.
  - apply seq_NoDup.
  - apply Forall_forall. intros i Hi. apply in_seq in Hi. lia.
Qed.

(** The engine of the scenario after a cache went stale: the similarity
    matrix has a single row, and the model raises for every pair. *)
Definition stale_engine : Run.engine :=
  {| movies_df := [Run.movie 1; Run.movie 2; Run.movie 3];
     ratings_df := [Run.rate 1 7 1 4.5];
     watchlist_df := [];
     tfidf_vectorizer := tt;
     tfidf_matrix := 1;
     content_similarity := [[1; 0.8; 0.1]]%float;
     svd_model := PySVD (Run.svd_fit []) |}.

(** The scored candidates of the scenario, user 7. *)
Definition scenario_recs : list recommendation :=
  [ {| rec_movie_id := 2;
       content_score := (0.8 * 5)%float;
       collab_score := 3.0%float;
       hybrid_score := (0.4 * (0.8 * 5) + 0.6 * 3.0)%float;
       in_watchlist := false |};
    {| rec_movie_id := 3;
       content_score := (0.1 * 5)%float;
       collab_score := 3.0%float;
       hybrid_score := (0.4 * (0.1 * 5) + 0.6 * 3.0)%float;
       in_watchlist := false |} ].

Lemma scenario_recommendations :
  recommendations Run.mean (Run.scenario []) 7 = inr scenario_recs.
Proof.
  vm_compute. reflexivity.
Qed.

Lemma hybrid_path_excludes_rated_witness :
  Run.get_recommendations (Run.scenario []) Run.first_rows 7 2
    = inr [2; 3] /\
  ~ In 1 [2; 3].
Proof.
  split; [ vm_compute; reflexivity | ].
  apply (hybrid_path_excludes_rated unit nat Run.mean Run.mean
           Run.sort_values_descending (Run.scenario []) Run.first_rows
           7 2 [2; 3] (Run.rate 1 7 1 4.5)).
  - discriminate.
  - vm_compute. reflexivity.
  - simpl. left. reflexivity.
  - reflexivity.
Defined.

(** A watchlist where user 8 has movie 2 and user 7 has movie 3: for
    user 7 only movie 3 is boosted. *)
Definition two_watchers : list Watchlist.row :=
  [Watchlist.mk 1 8 2 0; Watchlist.mk 2 7 3 0].

Lemma hybrid_score_weights_and_boost_witness :
  exists recs' r2 r3,
    recommendations Run.mean
      (with_watchlist (Run.scenario []) two_watchers) 7 = inr recs' /\
    nth_error recs' 0 = Some r2 /\
    rec_movie_id r2 = 2 /\
    in_watchlist r2 = false /\
    nth_error recs' 1 = Some r3 /\
    rec_movie_id r3 = 3 /\
    in_watchlist r3 = true /\
    hybrid_score r3 = (0.4 * (0.1 * 5) + 0.6 * 3.0 + 0.2)%float.
Proof.
  destruct (hybrid_score_weights_and_boost unit nat Run.mean
              (Run.scenario []) 7 two_watchers scenario_recs 0
              {| rec_movie_id := 2;
                 content_score := (0.8 * 5)%float;
                 collab_score := 3.0%float;
                 hybrid_score := (0.4 * (0.8 * 5) + 0.6 * 3.0)%float;
                 in_watchlist := false |})
    as (_ & _ & recs2 & r2 & Hrecs2 & Hnth2 & Hid2 & _ & _ & Hrows2 & _).
  { vm_compute. reflexivity. }
  { reflexivity. }
  destruct (hybrid_score_weights_and_boost unit nat Run.mean
              (Run.scenario []) 7 two_watchers scenario_recs 1
              {| rec_movie_id := 3;
                 content_score := (0.1 * 5)%float;
                 collab_score := 3.0%float;
                 hybrid_score := (0.4 * (0.1 * 5) + 0.6 * 3.0)%float;
                 in_watchlist := false |})
    as (_ & _ & recs3 & r3 & Hrecs3 & Hnth3 & Hid3 & _ & _ & Hrows3
        & Hboost).
  { vm_compute. reflexivity. }
  { reflexivity. }
  assert (E : recs3 = recs2).
  { rewrite Hrecs2 in Hrecs3. inversion Hrecs3. reflexivity. }
  subst recs3.
  assert (Hw3 : in_watchlist r3 = true).
  { apply Hrows3. exists (Watchlist.mk 2 7 3 0).
    split; [ right; left; reflexivity | split; reflexivity ]. }
  assert (Hw2 : in_watchlist r2 = false).
  { destruct (in_watchlist r2) eqn:Hflag; [ | reflexivity ].
    destruct (proj1 Hrows2 eq_refl) as (w & Hin & Hu & Hm).
    destruct Hin as [ <- | [ <- | [] ] ]; simpl in Hu, Hm;
      discriminate. }
  exists recs2, r2, r3.
  split; [ exact Hrecs2 | ]. split; [ exact Hnth2 | ].
  split; [ exact Hid2 | ]. split; [ exact Hw2 | ].
  split; [ exact Hnth3 | ]. split; [ exact Hid3 | ].
  split; [ exact Hw3 | ].
  rewrite (Hboost eq_refl Hw3). reflexivity.
Defined.

(** User 7 rated movies 1, 99 and 2, where 99 is not in the frame: the
    only candidate is movie 3, scored against movies 1 and 2. *)
Definition two_rated : Run.engine :=
  {| movies_df := [Run.movie 1; Run.movie 2; Run.movie 3];
     ratings_df := [Run.rate 1 7 1 4.5; Run.rate 2 7 99 3.0;
                    Run.rate 3 7 2 3.5];
     watchlist_df := [];
     tfidf_vectorizer := tt;
     tfidf_matrix := 3;
     content_similarity :=
       [[1; 0.8; 0.1]; [0.8; 1; 0.3]; [0.1; 0.3; 1]]%float;
     svd_model := PyNone |}.

(** User 7 rated only a movie that is not in the frame. *)
Definition orphan_rated : Run.engine :=
  {| movies_df := [Run.movie 1; Run.movie 2; Run.movie 3];
     ratings_df := [Run.rate 1 7 99 3.0];
     watchlist_df := [];
     tfidf_vectorizer := tt;
     tfidf_matrix := 3;
     content_similarity :=
       [[1; 0.8; 0.1]; [0.8; 1; 0.3]; [0.1; 0.3; 1]]%float;
     svd_model := PyNone |}.

Definition two_rated_rec : recommendation :=
  {| rec_movie_id := 3;
     content_score := (Run.mean [0.1; 0.3] * 5)%float;
     collab_score := 3.0%float;
     hybrid_score := (0.4 * (Run.mean [0.1; 0.3] * 5) + 0.6 * 3.0)%float;
     in_watchlist := false |}.

Definition orphan_rec (movie_id : nat) : recommendation :=
  {| rec_movie_id := movie_id;
     content_score := 0%float;
     collab_score := 3.0%float;
     hybrid_score := (0.4 * 0 + 0.6 * 3.0)%float;
     in_watchlist := false |}.

Lemma content_score_is_scaled_mean_witness :
  (exists labelled positions sims,
     nth_error (unrated_movies two_rated [1; 99; 2]) 0 = Some labelled /\
     nth_error (movies_df two_rated) (fst labelled) = Some (snd labelled) /\
     3 = Movie.id (snd labelled) /\
     Forall2 (first_row (movies_df two_rated)) [1; 2] positions /\
     Forall2 (entry (content_similarity two_rated) (fst labelled))
       positions sims /\
     (Run.mean [0.1; 0.3] * 5)%float =
       match sims with
       | [] => 0%float
       | _ :: _ => (Run.mean sims * 5)%float
       end) /\
  recommendations Run.mean orphan_rated 7
    = inr [orphan_rec 1; orphan_rec 2; orphan_rec 3] /\
  _get_content_scores Run.mean orphan_rated 0 [99] = inr 0%float.
Proof.
  split; [ | split ].
  - apply (proj1 (content_score_is_scaled_mean unit nat Run.mean
                    two_rated 7 [two_rated_rec] 0 two_rated_rec
                    ltac:(vm_compute; reflexivity) eq_refl)).
  - vm_compute. reflexivity.
  - apply (proj2 (content_score_is_scaled_mean unit nat Run.mean
                    orphan_rated 7
                    [orphan_rec 1; orphan_rec 2; orphan_rec 3] 0
                    (orphan_rec 1)
                    ltac:(vm_compute; reflexivity) eq_refl)).
    intros rid [ <- | [] ] Hin. simpl in Hin.
    destruct Hin as [ H | [ H | [ H | [] ] ] ]; discriminate H.
Defined.

Lemma collaborative_score_neutral_default_witness :
  _get_collaborative_score (Run.scenario []) 7 2 = 3.0%float /\
  _get_collaborative_score stale_engine 7 2 = 3.0%float /\
  _build_collaborative_model Run.svd_fit Run.empty_cache
      [Run.rate 1 7 1 4.5]
    = (inr PyNone, Run.empty_cache) /\
  exists labelled,
    In labelled (unrated_movies stale_engine [1]) /\
    _get_content_scores Run.mean stale_engine (fst labelled) [1]
      = inl IndexError.
Proof.
  split; [ | split; [ | split ] ].
  - apply (proj1 (collaborative_score_neutral_default unit nat
                    Run.svd_fit Run.mean (Run.scenario []) 7 2)).
    reflexivity.
  - apply (proj1 (proj2 (collaborative_score_neutral_default unit nat
                           Run.svd_fit Run.mean stale_engine 7 2))
             PredictionError).
    reflexivity.
  - apply (proj1 (proj2 (proj2 (collaborative_score_neutral_default
                                  unit nat Run.svd_fit Run.mean
                                  stale_engine 7 2)))).
    + reflexivity.
    + simpl. lia.
  - apply (proj2 (proj2 (proj2 (collaborative_score_neutral_default
                                  unit nat Run.svd_fit Run.mean
                                  stale_engine 7 2)))
             IndexError).
    vm_compute. reflexivity.
Defined.

Lemma hybrid_path_ranked_descending_stable_witness :
  exists ranked,
    Run.get_recommendations (Run.scenario []) Run.first_rows 7 2
      = inr (map rec_movie_id (firstn 2 ranked)) /\
    Permutation ranked scenario_recs /\
    StronglySorted (not_below hybrid_score) ranked.
Proof.
  destruct (hybrid_path_ranked_descending_stable unit nat Run.mean
              Run.mean Run.sort_values_descending (Run.scenario [])
              Run.first_rows 7 2 scenario_recs)
    as (ranked & Hres & Hperm & Hsorted & _).
  - discriminate.
  - vm_compute. reflexivity.
  - repeat constructor.
  - exists ranked. repeat split; assumption.
Defined.

(** User 9 is in no frame at all. *)
Lemma cold_start_popularity_or_sample_witness :
  (exists ranked,
     Run.get_recommendations (Run.scenario []) Run.first_rows 9 3
       = inr (map fst (firstn 3 ranked)) /\
     Permutation ranked (popularity Run.mean (Run.scenario []))) /\
  (exists (positions : list nat) (rows : list Movie.row),
     Run.get_recommendations Run.unrated_catalog Run.first_rows 9 2
       = inr (map Movie.id rows) /\
     length rows = 2 /\
     NoDup positions).
Proof.
  split.
  - destruct (cold_start_popularity_or_sample unit nat Run.mean Run.mean
                Run.sort_values_descending (Run.scenario [])
                Run.first_rows 9 3)
      as (Hranked & _ & _).
    + simpl. intros rt [<- | []]. discriminate.
    + exact run_sort_values_spec.
    + exact first_rows_ok.
    + destruct Hranked as (ranked & Hres & Hperm & _).
      * discriminate.
      * exists ranked. split; assumption.
  - destruct (cold_start_popularity_or_sample unit nat Run.mean Run.mean
                Run.sort_values_descending Run.unrated_catalog
                Run.first_rows 9 2)
      as (_ & _ & Hsample).
    + simpl. intros rt [].
    + exact run_sort_values_spec.
    + exact first_rows_ok.
    + destruct Hsample as (positions & rows & Hres & Hlen & Hnd & _).
      * reflexivity.
      * simpl. lia.
      * exists positions, rows. repeat split; assumption.
Defined.

(** C6, as stated, at a concrete snapshot: three movies, one of them
    rated by user 7, and user 9 without ratings asking for three.  The
    result is not the first three of any ranking of every movie. *)
Lemma cold_start_does_not_rank_every_item :
  exists res,
    Run.get_recommendations (Run.scenario []) Run.first_rows 9 3
      = inr res /\
    ~ (exists ranking,
         Permutation ranking (map Movie.id (movies_df (Run.scenario [])))
         /\ res = firstn 3 ranking).
Proof.
  exists [1]. split; [ vm_compute; reflexivity | ].
  intros (ranking & Hperm & Hres).
  apply Permutation_length in Hperm. simpl in Hperm.
  assert (Hlen : length (firstn 3 ranking) = 3).
  { rewrite length_firstn. lia. }
  rewrite <- Hres in Hlen. discriminate Hlen.
Qed.

Lemma random_fallback_raises_beyond_catalog_witness :
  Run.get_recommendations Run.unrated_catalog Run.first_rows 1 10
    = inl ValueError.
Proof.
  apply (random_fallback_raises_beyond_catalog unit nat Run.mean Run.mean
           Run.sort_values_descending Run.unrated_catalog Run.first_rows
           1 10).
  - reflexivity.
  - simpl. lia.
Defined.

Lemma get_recommendations_deterministic_witness :
  Run.get_recommendations (Run.scenario []) Run.first_rows 9 1 =
  Run.get_recommendations (Run.scenario []) Run.last_rows 9 1.
Proof.
  apply (get_recommendations_deterministic unit nat Run.mean Run.mean
           Run.sort_values_descending (Run.scenario []) Run.first_rows
           Run.last_rows 9 1).
  discriminate.
Defined.

(** With an empty rating frame the generator decides the result. *)
Lemma random_fallback_depends_on_generator :
  Run.get_recommendations Run.unrated_catalog Run.first_rows 9 1 <>
  Run.get_recommendations Run.unrated_catalog Run.last_rows 9 1.
Proof.
  vm_compute. discriminate.
Qed.

(** A cache holding a content model and a collaborative model. *)
Definition warm_cache : cache_dir unit nat :=
  {| content_model_pkl :=
       Some (Pickle (PyDict {| cd_vectorizer := tt;
                               cd_matrix := 3;
                               cd_similarity :=
                                 Run.cosine_similarity 3 3 |}));
     svd_model_pkl := Some (Pickle (PySVD (Run.svd_fit []))) |}.

Lemma cache_hit_loads_cache_miss_builds_witness :
  _build_content_model Run.fit_transform Run.cosine_similarity warm_cache
      [Run.movie 1]
    = (inr {| cd_vectorizer := tt;
              cd_matrix := 3;
              cd_similarity := Run.cosine_similarity 3 3 |},
       warm_cache) /\
  _build_collaborative_model Run.svd_fit warm_cache []
    = (inr (PySVD (Run.svd_fit [])), warm_cache) /\
  _build_collaborative_model Run.svd_fit Run.empty_cache
      [Run.rate 1 7 1 4.5]
    = (inr PyNone, Run.empty_cache).
Proof.
  pose proof (cache_hit_loads_cache_miss_builds unit nat Run.fit_transform
                Run.cosine_similarity Run.svd_fit warm_cache
                [Run.movie 1] [])
    as (Hcontent & Hsvd & _).
  pose proof (cache_hit_loads_cache_miss_builds unit nat Run.fit_transform
                Run.cosine_similarity Run.svd_fit Run.empty_cache
                [Run.movie 1] [Run.rate 1 7 1 4.5])
    as (_ & _ & _ & _ & Hshort).
  split; [ | split ].
  - apply Hcontent. reflexivity.
  - apply Hsvd. reflexivity.
  - apply Hshort; [ reflexivity | simpl; lia ].
Defined.

(** C8, as stated, at a concrete snapshot: no cached collaborative
    model and a single rating.  No model is built and nothing is
    saved. *)
Lemma collaborative_miss_below_threshold_saves_nothing :
  content_model_pkl Run.empty_cache = None /\
  svd_model_pkl Run.empty_cache = None /\
  ~ (exists model,
       svd_model_pkl
         (snd (_build_collaborative_model Run.svd_fit Run.empty_cache
                 [Run.rate 1 7 1 4.5]))
       = Some (Pickle model)).
Proof.
  split; [ reflexivity | split; [ reflexivity | ] ].
  intros (model & H). vm_compute in H. discriminate H.
Qed.

Definition connection : database :=
  {| recommender_movie := [Run.movie 1; Run.movie 2];
     recommender_rating := [Run.rate 1 7 1 4.5];
     recommender_watchlist := [] |}.

Lemma unloadable_cache_raises_witness :
  __init__ Run.fit_transform Run.cosine_similarity Run.svd_fit
      {| content_model_pkl := Some Garbage; svd_model_pkl := None |}
      connection
    = (inl UnpicklingError,
       {| content_model_pkl := Some Garbage; svd_model_pkl := None |}) /\
  fst (__init__ Run.fit_transform Run.cosine_similarity Run.svd_fit
         {| content_model_pkl := None; svd_model_pkl := Some Unreadable |}
         connection)
    = inl OSError.
Proof.
  split.
  - apply (proj1 (unloadable_cache_raises unit nat Run.fit_transform
                    Run.cosine_similarity Run.svd_fit
                    {| content_model_pkl := Some Garbage;
                       svd_model_pkl := None |}
                    connection Garbage UnpicklingError eq_refl)).
    reflexivity.
  - destruct (proj2 (unloadable_cache_raises unit nat Run.fit_transform
                       Run.cosine_similarity Run.svd_fit
                       {| content_model_pkl := None;
                          svd_model_pkl := Some Unreadable |}
                       connection Unreadable OSError eq_refl)
                eq_refl
                {| cd_vectorizer := tt;
                   cd_matrix := 2;
                   cd_similarity := Run.cosine_similarity 2 2 |}
                {| content_model_pkl :=
                     Some (Pickle (PyDict
                       {| cd_vectorizer := tt;
                          cd_matrix := 2;
                          cd_similarity := Run.cosine_similarity 2 2 |}));
                   svd_model_pkl := Some Unreadable |})
      as (Hinit & _).
    + reflexivity.
    + rewrite Hinit. reflexivity.
Defined.

(** Equal keys keep their order under [reverse=True]: ids 1 and 3 tie
    below id 2 and stay in that order. *)
Example list_sort_reverse_keeps_ties :
  map fst (list_sort snd true
             [(1, 1.5%float); (2, 2.5%float); (3, 1.5%float)])
    = [2; 1; 3].
Proof.
  vm_compute. reflexivity.
Qed.

(* ================================================================== *)
(** * Further properties of the engine *)
(* ================================================================== *)

Section EngineFacts.

Variable vectorizer : Type.
Variable tfidf : Type.
Variable np_mean : list float -> float.
Variable groupby_mean : list float -> float.
Variable sort_values_descending : list (nat * float) -> list (nat * float).

Local Abbreviation engine := (HybridRecommender vectorizer tfidf).
Local Abbreviation get_recs :=
  (get_recommendations np_mean groupby_mean sort_values_descending).

Lemma for_each_ext {A B} (f g : A -> result B) (l : list A) :
  (forall x, In x l -> f x = g x) -> for_each f l = for_each g l.
Proof.
  induction l as [ | x l IH ]; simpl; intros H.
  - reflexivity.
  - rewrite (H x (or_introl eq_refl)), IH; [ reflexivity | ].
    intros y Hy. apply H. right. exact Hy.
Qed.

Lemma for_each_total {A B} (f : A -> result B) (l : list A) :
  (forall x, In x l -> exists r, f x = inr r) ->
  exists rs, for_each f l = inr rs.
Proof.
  induction l as [ | x l IH ]; simpl; intros H.
  - exists []. reflexivity.
  - destruct (H x (or_introl eq_refl)) as (r & Hr).
    destruct IH as (rs & Hrs).
    + intros y Hy. apply H. right. exact Hy.
    + exists (r :: rs). rewrite Hr, Hrs. reflexivity.
Qed.

Lemma similarities_same_frame (self self' : engine) (movie_idx : nat)
    (rated : list nat) :
  movies_df self = movies_df self' ->
  content_similarity self = content_similarity self' ->
  similarities vectorizer tfidf self movie_idx rated =
  similarities vectorizer tfidf self' movie_idx rated.
Proof.
  intros Hm Hc. induction rated as [ | rid rated IH ]; simpl.
  - reflexivity.
  - rewrite Hm, Hc, IH. reflexivity.
Qed.

(** X1. Whenever [get_recommendations] returns, over snapshots with a
    primary key on movies and a foreign key from ratings, the list has
    at most [n] ids, no id twice, and only ids of the movie frame. *)
Theorem returned_list_contract
    (self : engine) (random_state : nat -> nat -> list nat)
    (user_id n : nat) (res : list nat) :
  sort_values_spec sort_values_descending ->
  choice_ok random_state ->
  snapshots_ok self ->
  get_recs self random_state user_id n = inr res ->
  length res <= n /\
  NoDup res /\
  (forall movie_id, In movie_id res ->
     In movie_id (map Movie.id (movies_df self))).
Proof.
  intros Hsort Hok Hsnap H.
  exact (get_recommendations_well_formed vectorizer tfidf np_mean
           groupby_mean sort_values_descending self random_state
           user_id n res Hsort Hok Hsnap H).
Qed.

(** X2. On the hybrid path, when [n] is at least the number of movies
    the user has not rated, a returned list holds every unrated movie
    of the frame exactly as often as the frame does. *)
Theorem hybrid_path_returns_every_unrated_movie
    (self : engine) (random_state : nat -> nat -> list nat)
    (user_id n : nat) (res : list nat) :
  let unrated :=
    filter (fun movie_id =>
              negb (isin movie_id
                      (map Rating.movie_id (user_ratings self user_id))))
           (map Movie.id (movies_df self)) in
  user_ratings self user_id <> [] ->
  length unrated <= n ->
  get_recs self random_state user_id n = inr res ->
  Permutation res unrated.
Proof.
  intros unrated Hu Hn H.
  destruct (hybrid_result_incl vectorizer tfidf np_mean groupby_mean
              sort_values_descending self random_state user_id n res Hu H)
    as (recs & Hrecs & ->).
  pose proof (recommendations_ids vectorizer tfidf np_mean self user_id
                recs Hrecs) as Hids.
  fold unrated in Hids.
  assert (Hlen : length recs <= n).
  { rewrite <- (length_map rec_movie_id), Hids. exact Hn. }
  rewrite firstn_all2.
  - rewrite <- Hids. apply Permutation_map, list_sort_perm.
  - rewrite (Permutation_length (list_sort_perm _ hybrid_score true recs)).
    exact Hlen.
Qed.

(** X3. On the cold-start path with a non-empty rating frame, when [n]
    is at least the number of distinct rated movies, the list holds
    every movie id of the rating frame exactly once. *)
Theorem cold_start_returns_every_rated_movie
    (self : engine) (random_state : nat -> nat -> list nat)
    (user_id n : nat) :
  sort_values_spec sort_values_descending ->
  user_ratings self user_id = [] ->
  ratings_df self <> [] ->
  length (groupby_keys (map Rating.movie_id (ratings_df self))) <= n ->
  exists res,
    get_recs self random_state user_id n = inr res /\
    NoDup res /\
    (forall movie_id,
       In movie_id res <->
       exists rt, In rt (ratings_df self) /\
                  Rating.movie_id rt = movie_id).
Proof.
  intros Hsort Hcold Hne Hn.
  destruct (Hsort (popularity groupby_mean self)) as (Hperm & _).
  assert (Hp : Permutation
                 (map fst (sort_values_descending
                             (popularity groupby_mean self)))
                 (groupby_keys (map Rating.movie_id (ratings_df self)))).
  { rewrite <- (popularity_ids vectorizer tfidf groupby_mean self).
    apply Permutation_map, Hperm. }
  exists (map fst (sort_values_descending (popularity groupby_mean self))).
  split; [ | split ].
  - rewrite get_recommendations_cold_start by exact Hcold.
    rewrite _get_popular_movies_ranked by exact Hne.
    rewrite firstn_all2; [ reflexivity | ].
    rewrite <- (length_map fst), (Permutation_length Hp). exact Hn.
  - eapply Permutation_NoDup.
    + apply Permutation_sym, Hp.
    + apply groupby_keys_NoDup.
  - intros movie_id. split.
    + intros Hin. apply (Permutation_in _ Hp) in Hin.
      apply groupby_keys_In, in_map_iff in Hin.
      destruct Hin as (rt & Hid & Hin). exists rt. auto.
    + intros (rt & Hin & Hid).
      apply (Permutation_in _ (Permutation_sym Hp)).
      apply groupby_keys_In, in_map_iff. exists rt. auto.
Qed.

(** X4. Cold-start results are not personal: over the same movie and
    rating frames, any two users without ratings get the same list from
    the same generator, whatever the watchlist, the similarity matrix
    and the collaborative model are. *)
Theorem cold_start_ignores_user_and_models
    (self self' : engine) (random_state : nat -> nat -> list nat)
    (user_id user_id' n : nat) :
  movies_df self = movies_df self' ->
  ratings_df self = ratings_df self' ->
  user_ratings self user_id = [] ->
  user_ratings self' user_id' = [] ->
  get_recs self random_state user_id n =
  get_recs self' random_state user_id' n.
Proof.
  intros Hm Hr Hu Hu'.
  rewrite !get_recommendations_cold_start by assumption.
  unfold _get_popular_movies, popularity, group.
  rewrite Hm, Hr. reflexivity.
Qed.

(** X5. On the hybrid path the result depends on the rating and
    watchlist frames only through the requesting user's own rows: two
    engines with the same movie frame, matrix and model, the same
    ratings of this user and the same watchlist membership for this
    user return the same list, whatever other users' rows are. *)
Theorem hybrid_path_uses_own_rows_only
    (self self' : engine) (random_state random_state' : nat -> nat -> list nat)
    (user_id n : nat) :
  movies_df self = movies_df self' ->
  content_similarity self = content_similarity self' ->
  svd_model self = svd_model self' ->
  user_ratings self user_id = user_ratings self' user_id ->
  (forall movie_id,
     _is_in_watchlist self user_id movie_id =
     _is_in_watchlist self' user_id movie_id) ->
  user_ratings self user_id <> [] ->
  get_recs self random_state user_id n =
  get_recs self' random_state' user_id n.
Proof.
  intros Hm Hc Hs Hu Hw Hne.
  rewrite !get_recommendations_hybrid by (try rewrite <- Hu; exact Hne).
  assert (Hrecs : recommendations np_mean self user_id =
                  recommendations np_mean self' user_id).
  { unfold recommendations, unrated_movies. rewrite <- Hu, <- Hm.
    apply for_each_ext. intros labelled _.
    unfold score_movie, _get_content_scores, _get_collaborative_score.
    rewrite (similarities_same_frame self self' _ _ Hm Hc).
    rewrite <- Hs, !Hw. reflexivity. }
  rewrite Hrecs. reflexivity.
Qed.

(* ------------------------------------------------------------------ *)
(** ** The similarity matrix against the movie frame *)
(* ------------------------------------------------------------------ *)

(** [a] has at least [k] rows and every row at least [k] entries, as the
    matrix [cosine_similarity] returns for [k] documents has. *)
Definition covers (a : ndarray) (k : nat) : Prop :=
  k <= length a /\ Forall (fun r => k <= length r) a.

Lemma getitem2_covers (a : ndarray) (k i j : nat) :
  covers a k -> i < k -> j < k -> exists v, getitem2 a i j = inr v.
Proof.
  intros (Hrows & Hcols) Hi Hj. unfold getitem2.
  destruct (nth_error a i) as [ r | ] eqn:Er.
  - rewrite Forall_forall in Hcols.
    pose proof (Hcols r (nth_error_In _ _ Er)) as Hr.
    destruct (nth_error r j) as [ v | ] eqn:Ev.
    + exists v. reflexivity.
    + apply nth_error_None in Ev. lia.
  - apply nth_error_None in Er. lia.
Qed.

Lemma getitem2_inl (a : ndarray) (i j : nat) (e : exn) :
  getitem2 a i j = inl e -> e = IndexError.
Proof.
  unfold getitem2.
  destruct (nth_error a i) as [ r | ]; [ | intros H; inversion H; auto ].
  destruct (nth_error r j); intros H; inversion H; auto.
Qed.

Lemma index_of_combine_bound (movie_id : nat) (df : list Movie.row)
    (start j : nat) :
  index_of movie_id (combine (seq start (length df)) df) = Some j ->
  start <= j < start + length df.
Proof.
  revert start. induction df as [ | m df IH ]; simpl; intros start H.
  - discriminate H.
  - destruct (Movie.id m =? movie_id).
    + inversion H; subst. lia.
    + apply IH in H. lia.
Qed.

Lemma rated_positions_bound (self : engine) (rated : list nat) :
  Forall (fun j => j < length (movies_df self))
         (rated_positions self rated).
Proof.
  unfold rated_positions. apply Forall_forall. intros j Hj.
  apply in_flat_map in Hj. destruct Hj as (rid & _ & Hj).
  destruct (index_of rid (iterrows (movies_df self))) as [ k | ] eqn:E;
    [ | contradiction ].
  destruct Hj as [<- | []].
  apply index_of_combine_bound in E. lia.
Qed.

Lemma unrated_movies_bound (self : engine) (rated : list nat)
    (labelled : nat * Movie.row) :
  In labelled (unrated_movies self rated) ->
  fst labelled < length (movies_df self).
Proof.
  unfold unrated_movies, iterrows. intros H.
  apply filter_In in H. destruct H as [H _].
  destruct labelled as [i m]. apply in_combine_l in H.
  apply in_seq in H. simpl. lia.
Qed.

(** X6. With a similarity matrix that covers the movie frame (at least
    as many rows and columns as the frame has movies), a request on the
    hybrid path never raises: it returns a list for every [n]. *)
Theorem hybrid_path_returns_when_matrix_covers_frame
    (self : engine) (random_state : nat -> nat -> list nat)
    (user_id n : nat) :
  covers (content_similarity self) (length (movies_df self)) ->
  user_ratings self user_id <> [] ->
  exists res, get_recs self random_state user_id n = inr res.
Proof.
  intros Hcov Hu.
  rewrite get_recommendations_hybrid by exact Hu.
  destruct (for_each_total
              (score_movie vectorizer tfidf np_mean self user_id
                 (map Rating.movie_id (user_ratings self user_id)))
              (unrated_movies self
                 (map Rating.movie_id (user_ratings self user_id))))
    as (recs & Hrecs).
  - intros labelled Hin.
    pose proof (unrated_movies_bound self _ labelled Hin) as Hi.
    destruct (for_each_total
                (getitem2 (content_similarity self) (fst labelled))
                (rated_positions self
                   (map Rating.movie_id (user_ratings self user_id))))
      as (sims & Hsims).
    + intros j Hj.
      pose proof (rated_positions_bound self
                    (map Rating.movie_id (user_ratings self user_id)))
        as Hb.
      rewrite Forall_forall in Hb.
      apply (getitem2_covers _ _ _ _ Hcov Hi (Hb j Hj)).
    + unfold score_movie, _get_content_scores.
      rewrite similarities_for_each, Hsims.
      destruct (map Rating.movie_id (user_ratings self user_id));
        simpl; eexists; reflexivity.
  - unfold recommendations. rewrite Hrecs. simpl. eexists. reflexivity.
Qed.

(** X7. A matrix that is too short for the movie frame (a cache older
    than the frame) makes the hybrid path raise [IndexError]: it is
    enough that one unrated movie sits at a row the matrix does not
    have while one of the user's rated movies is in the frame. *)
Theorem hybrid_path_raises_on_short_matrix
    (self : engine) (random_state : nat -> nat -> list nat)
    (user_id n : nat) (labelled : nat * Movie.row) :
  let rated := map Rating.movie_id (user_ratings self user_id) in
  In labelled (unrated_movies self rated) ->
  length (content_similarity self) <= fst labelled ->
  rated_positions self rated <> [] ->
  get_recs self random_state user_id n = inl IndexError.
Proof.
  intros rated Hin Hshort Hpos.
  assert (Hu : user_ratings self user_id <> []).
  { intros E. apply Hpos. unfold rated. rewrite E. reflexivity. }
  rewrite get_recommendations_hybrid by exact Hu.
  destruct (recommendations np_mean self user_id) as [ e | recs ] eqn:Hrecs.
  - simpl. f_equal.
    destruct (recommendations_inl vectorizer tfidf np_mean self user_id e
                Hrecs) as (l & _ & Hl).
    unfold _get_content_scores in Hl. fold rated in Hl.
    destruct rated as [ | rid rated' ]; [ discriminate Hl | ].
    rewrite similarities_for_each in Hl.
    destruct (for_each (getitem2 (content_similarity self) (fst l))
                (rated_positions self (rid :: rated')))
      as [ e' | sims ] eqn:Hf; simpl in Hl; [ | discriminate Hl ].
    inversion Hl; subst e'.
    apply for_each_inl in Hf. destruct Hf as (j & _ & Hj).
    apply getitem2_inl in Hj. exact Hj.
  - exfalso.
    pose proof (recommendations_scored vectorizer tfidf np_mean self
                  user_id recs Hrecs) as Hsc.
    fold rated in Hsc.
    destruct (In_nth_error _ _ Hin) as (i & Hi).
    destruct (Forall2_nth_error_l _ _ _ Hsc i labelled Hi)
      as (r & _ & c & Hc & _).
    destruct (_get_content_scores_inr vectorizer tfidf np_mean self _ _ c
                Hc) as (sims & Hs & _).
    destruct (rated_positions self rated) as [ | j js ];
      [ contradiction | ].
    simpl in Hs. unfold getitem2 in Hs.
    destruct (nth_error (content_similarity self) (fst labelled))
      as [ row | ] eqn:Er.
    + assert (fst labelled < length (content_similarity self)).
      { apply nth_error_Some. congruence. }
      lia.
    + discriminate Hs.
Qed.

(** X18. Asking for fewer recommendations gives a prefix: over a
    non-empty rating frame, if a request for [m] ids returns a list,
    the request for [n <= m] ids returns its first [n] ids. *)
Theorem shorter_request_is_prefix
    (self : engine) (random_state : nat -> nat -> list nat)
    (user_id n m : nat) (res : list nat) :
  ratings_df self <> [] ->
  n <= m ->
  get_recs self random_state user_id m = inr res ->
  get_recs self random_state user_id n = inr (firstn n res).
Proof.
  intros Hne Hnm H.
  destruct (user_ratings self user_id) as [ | rt urs ] eqn:Hur.
  - rewrite get_recommendations_cold_start in H |- * by exact Hur.
    rewrite _get_popular_movies_ranked in H |- * by exact Hne.
    inversion H; subst res.
    rewrite <- !firstn_map, firstn_firstn, Nat.min_l by exact Hnm.
    reflexivity.
  - assert (Hu : user_ratings self user_id <> [])
      by (rewrite Hur; discriminate).
    rewrite get_recommendations_hybrid in H |- * by exact Hu.
    apply bind_inr in H. destruct H as (recs & Hrecs & H).
    inversion H; subst res. rewrite Hrecs. unfold bind, ret.
    rewrite <- !firstn_map, firstn_firstn, Nat.min_l by exact Hnm.
    reflexivity.
Qed.

End EngineFacts.

(* ================================================================== *)
(** * Further properties of construction *)
(* ================================================================== *)

Section ConstructionFacts.

Variable vectorizer : Type.
Variable tfidf : Type.
Variable fit_transform : list string -> result (vectorizer * tfidf).
Variable cosine_similarity : tfidf -> tfidf -> ndarray.
Variable svd_fit : list (nat * nat * float) -> nat -> nat -> result float.
Variable np_mean : list float -> float.
Variable groupby_mean : list float -> float.
Variable sort_values_descending : list (nat * float) -> list (nat * float).

Local Abbreviation init := (__init__ fit_transform cosine_similarity svd_fit).
Local Abbreviation get_recs :=
  (get_recommendations np_mean groupby_mean sort_values_descending).

(** X9. Construction never removes or replaces a cache file that is
    there before it starts: an existing [content_model.pkl] and an
    existing [svd_model.pkl] are the same files afterwards, whether
    construction returns an engine or raises. *)
Theorem construction_keeps_cache_files
    (cache : cache_dir vectorizer tfidf) (connection : database) :
  (forall f, content_model_pkl cache = Some f ->
     content_model_pkl (snd (init cache connection)) = Some f) /\
  (forall f, svd_model_pkl cache = Some f ->
     svd_model_pkl (snd (init cache connection)) = Some f).
Proof.
  unfold __init__, _load_data, _build_content_model,
    _build_collaborative_model.
  destruct cache as [c s]; simpl.
  split.
  - intros f ->.
    destruct (pickle_load f) as [ e | [ | d | p | ] ]; simpl;
      try reflexivity.
    destruct s as [ g | ]; simpl.
    + destruct (pickle_load g); reflexivity.
    + destruct (length (recommender_rating connection) <? 100);
        reflexivity.
  - intros f ->.
    destruct c as [ g | ]; simpl.
    + destruct (pickle_load g) as [ e | [ | d | p | ] ]; simpl;
        try reflexivity.
      destruct (pickle_load f); reflexivity.
    + destruct (fit_transform
                  (map content (recommender_movie connection)))
        as [ e | [v m] ]; simpl; [ reflexivity | ].
      destruct (pickle_load f); reflexivity.
Qed.

(** X10. When [svd_model.pkl] unpickles to something that is not a
    fitted model, construction does not complain, and every
    collaborative score of the engine is the neutral 3.0: the wrong
    artifact shows up only as a flat collaborative signal. *)
Theorem foreign_pickle_gives_neutral_scores
    (cache cache1 : cache_dir vectorizer tfidf) (connection : database)
    (self : HybridRecommender vectorizer tfidf)
    (o : pyobj vectorizer tfidf) (user_id movie_id : nat) :
  svd_model_pkl cache = Some (Pickle o) ->
  (forall predict, o <> PySVD predict) ->
  init cache connection = (inr self, cache1) ->
  _get_collaborative_score self user_id movie_id = 3.0%float.
Proof.
  intros Hs Hno Hinit.
  assert (Hm : svd_model self = o).
  { unfold __init__, _load_data in Hinit.
    destruct (_build_content_model fit_transform cosine_similarity cache
                (recommender_movie connection)) as [[ e | d ] cache'] eqn:Hc;
      [ discriminate Hinit | ].
    assert (Hs' : svd_model_pkl cache' = Some (Pickle o)).
    { unfold _build_content_model in Hc.
      destruct (content_model_pkl cache) as [ g | ].
      - inversion Hc; subst. exact Hs.
      - destruct (fit_transform
                    (map content (recommender_movie connection)))
          as [ e' | [v m] ]; inversion Hc; subst; exact Hs. }
    unfold _build_collaborative_model in Hinit. rewrite Hs' in Hinit.
    simpl in Hinit. inversion Hinit. reflexivity. }
  unfold _get_collaborative_score. rewrite Hm.
  destruct o as [ | d | p | ]; try reflexivity.
  exfalso. apply (Hno p). reflexivity.
Qed.

(** [test_recommender()]: any exception, a failed assertion included, is
    caught and turned into the empty list. *)
Definition test_recommender (cache : cache_dir vectorizer tfidf)
    (connection : database) (random_state : nat -> nat -> list nat)
  : list nat * cache_dir vectorizer tfidf :=
  match init cache connection with
  | (inl _, cache1) => ([], cache1)
  | (inr recommender, cache1) =>
      match get_recs recommender random_state 1 10 with
      | inl _ => ([], cache1)
      | inr recommendations =>
          (* isinstance(recommendations, list) holds of every list;
             ids are integers *)
          if length recommendations <=? 10
          then (recommendations, cache1)
          else ([], cache1)
      end
  end.

(** X11. The self-test hides the sampling error: over a database with
    no rating and fewer than ten movies, with usable cache files,
    [test_recommender] returns the empty list instead of failing. *)
Theorem test_recommender_hides_sampling_error
    (cache cache1 : cache_dir vectorizer tfidf) (connection : database)
    (self : HybridRecommender vectorizer tfidf)
    (random_state : nat -> nat -> list nat) :
  init cache connection = (inr self, cache1) ->
  recommender_rating connection = [] ->
  length (recommender_movie connection) < 10 ->
  test_recommender cache connection random_state = ([], cache1).
Proof.
  intros Hinit Hr Hm. unfold test_recommender. rewrite Hinit.
  assert (Hself : ratings_df self = [] /\
                  movies_df self = recommender_movie connection).
  { unfold __init__, _load_data in Hinit.
    destruct (_build_content_model fit_transform cosine_similarity cache
                (recommender_movie connection)) as [[ e | d ] c1];
      [ discriminate Hinit | ].
    destruct (_build_collaborative_model svd_fit c1
                (recommender_rating connection)) as [[ e | m ] c2];
      [ discriminate Hinit | ].
    inversion Hinit; subst. simpl. auto. }
  destruct Hself as (Hr' & Hm').
  assert (Hraise : get_recs self random_state 1 10 = inl ValueError).
  { unfold get_recommendations, user_ratings, _get_popular_movies, sample.
    rewrite Hr', Hm'. simpl.
    apply Nat.ltb_lt in Hm. rewrite Hm. reflexivity. }
  rewrite Hraise. reflexivity.
Qed.

End ConstructionFacts.

(* ================================================================== *)
(** * The import script [scripts/populate_db.py] *)
(* ================================================================== *)

Module Populate.

(** Python [str]: a sequence of code points. *)
Definition str : Type := list N.

Definition lparen : N := 40.
Definition rparen : N := 41.

(** The code points of an ASCII literal. *)
Fixpoint literal (s : string) : str :=
  match s with
  | EmptyString => []
  | String c s' => Ascii.N_of_ascii c :: literal s'
  end.

(** [s.endswith(c)] for a one-character [c]. *)
Definition endswith (c : N) (s : str) : bool :=
  match rev s with
  | [] => false
  | x :: _ => N.eqb x c
  end.

(** [s.split(c)] for a one-character separator: never empty. *)
Fixpoint split (c : N) (s : str) : list str :=
  match s with
  | [] => [[]]
  | x :: s' =>
      if N.eqb x c then [] :: split c s'
      else
        match split c s' with
        | seg :: segs => (x :: seg) :: segs
        | [] => [[x]]
        end
  end.

Fixpoint lstrip (c : N) (s : str) : str :=
  match s with
  | [] => []
  | x :: s' => if N.eqb x c then lstrip c s' else s
  end.

(** [s.rstrip(c)]: every trailing [c] goes. *)
Definition rstrip (c : N) (s : str) : str := rev (lstrip c (rev s)).

(** The value of a [csv.DictReader] row under a column name: the header
    has no such column (subscripting raises [KeyError]), the line is
    shorter than the header (the value is [None]), or the text. *)
Inductive cell : Type :=
| NoColumn
| NoValue
| Text (s : str).

(** [row[column]] as a Python value: [None] of the outer option is the
    [KeyError]. *)
Definition getitem (c : cell) : option (option str) :=
  match c with
  | NoColumn => None
  | NoValue => Some None
  | Text s => Some (Some s)
  end.

Record link_row : Type := {
  link_movieId : cell;
  link_tmdbId : cell }.

Record movie_row : Type := {
  movie_movieId : cell;
  movie_title : cell;
  movie_genres : cell }.

Record rating_row : Type := {
  rating_userId : cell;
  rating_movieId : cell;
  rating_rating : cell;
  rating_timestamp : cell }.

(** A field of the JSON object TMDb answers with. *)
Inductive json_field : Type :=
| Absent
| Null
| Str (s : str).

(** What [requests.get], [raise_for_status] and [response.json()] come
    to: an exception somewhere, or the object. *)
Inductive reply : Type :=
| Failed
| Object (overview poster_path : json_field).

(** The [Movie] instances the script builds and reads. *)
Record Movie : Type := {
  title : str;
  genre : option str;
  director : str;
  release_year : Z;
  overview : str;
  poster_url : option str;
  tmdb_id : Z }.

(** The [Rating] instances it builds; the user is always the test
    user. *)
Record Rating : Type := {
  user : str;
  movie : Movie;
  rating : float }.

Definition MAX_MOVIES : nat := 5000.

Section Script.

(** [int(s)] and [float(s)] on text: [None] is [ValueError]. *)
Variable py_int : str -> option Z.
Variable py_float : str -> option float.

(** [s.isdigit()] *)
Variable isdigit : str -> bool.

(** The answer to the [k]-th request of the run, for a TMDb id. *)
Variable http_get : nat -> Z -> reply.

(** [data.get(key, '')] *)
Definition get_or_empty (f : json_field) : option str :=
  match f with
  | Absent => Some []
  | Null => None
  | Str s => Some s
  end.

(** Returns [(overview, poster_url)], or [(None, None)] on any
    exception. *)
Definition get_tmdb_movie_details (call : nat) (tmdb_id : Z)
  : option str * option str :=
  match http_get call tmdb_id with
  | Failed => (None, None)
  | Object overview poster_path =>
      let poster_url :=
        match get_or_empty poster_path with
        | Some (c :: p) =>
            Some (literal "https://image.tmdb.org/t/p/w500" ++ c :: p)
        | _ => None
        end in
      (get_or_empty overview, poster_url)
  end.

(** [int(row[column])]: [None] is any of [KeyError], [TypeError] and
    [ValueError]. *)
Definition int_cell (c : cell) : option Z :=
  match c with
  | Text s => py_int s
  | _ => None
  end.

Definition float_cell (c : cell) : option float :=
  match c with
  | Text s => py_float s
  | _ => None
  end.

(** [tmdb_mapping]: the newest binding of a key comes first. *)
Fixpoint lookup (k : Z) (d : list (Z * Z)) : option Z :=
  match d with
  | [] => None
  | (k', v) :: d' => if Z.eqb k' k then Some v else lookup k d'
  end.

(** The loop over [links.csv]; [None] when an exception ends it. *)
Fixpoint read_links (rows : list link_row) (tmdb_mapping : list (Z * Z))
  : option (list (Z * Z)) :=
  match rows with
  | [] => Some tmdb_mapping
  | row :: rest =>
      match int_cell (link_movieId row) with
      | None => None
      | Some movie_id =>
          match link_tmdbId row with
          | NoColumn => None
          | NoValue => read_links rest tmdb_mapping
          | Text [] => read_links rest tmdb_mapping
          | Text (c :: t) =>
              match py_int (c :: t) with
              | None => None
              | Some tmdb => read_links rest ((movie_id, tmdb) :: tmdb_mapping)
              end
          end
      end
  end.

(** The year between the last parentheses of a title, or 2000. *)
Definition year_of_title (title : str) : Z :=
  let release_year :=
    if endswith rparen title then
      let year_str := rstrip rparen (last (split lparen title) []) in
      if isdigit year_str && (length year_str =? 4)
      then py_int year_str          (* ValueError is passed over *)
      else None
    else None in
  match release_year with
  | Some y => if Z.eqb y 0 then 2000%Z else y
  | None => 2000%Z
  end.

(** The loop over [movies.csv]: the movies to create, or [None] when an
    exception ends it.  [calls] counts the requests made so far. *)
Fixpoint read_movies (tmdb_mapping : list (Z * Z)) (rows : list movie_row)
    (processed_count calls : nat) : option (list Movie) :=
  match rows with
  | [] => Some []
  | row :: rest =>
      if MAX_MOVIES <=? processed_count then Some []
      else
        match int_cell (movie_movieId row),
              getitem (movie_title row),
              getitem (movie_genres row) with
        | Some movie_id, Some title, Some genres =>
            match lookup movie_id tmdb_mapping with
            | None => read_movies tmdb_mapping rest processed_count calls
            | Some tmdb =>
                match get_tmdb_movie_details calls tmdb with
                | (None, _) =>
                    read_movies tmdb_mapping rest processed_count (S calls)
                | (Some overview, poster_url) =>
                    match title with
                    | None => None        (* None.endswith *)
                    | Some title =>
                        let m :=
                          {| title := title;
                             genre := genres;
                             director := literal "Unknown";
                             release_year := year_of_title title;
                             overview := overview;
                             poster_url := poster_url;
                             tmdb_id := tmdb |} in
                        match read_movies tmdb_mapping rest
                                (S processed_count) (S calls) with
                        | None => None
                        | Some ms => Some (m :: ms)
                        end
                    end
                end
            end
        | _, _, _ => None
        end
  end.

(** [populate_movies()]: the list handed to [bulk_create]; empty when
    the function returns early.  A file is [None] when it cannot be
    opened. *)
Definition populate_movies (links : option (list link_row))
    (movies : option (list movie_row)) : list Movie :=
  match links with
  | None => []
  | Some link_rows =>
      match read_links link_rows [] with
      | None => []
      | Some tmdb_mapping =>
          match movies with
          | None => []
          | Some movie_rows =>
              match read_movies tmdb_mapping movie_rows 0 0 with
              | None => []
              | Some movies_to_create => movies_to_create
              end
          end
      end
  end.

(** A dict keyed by TMDb id, in insertion order; setting a key that is
    there keeps its place. *)
Fixpoint dict_set (k : Z) (v : Movie) (d : list (Z * Movie))
  : list (Z * Movie) :=
  match d with
  | [] => [(k, v)]
  | (k', v') :: d' =>
      if Z.eqb k' k then (k', v) :: d' else (k', v') :: dict_set k v d'
  end.

(** [{movie.tmdb_id: movie for movie in Movie.objects.all()}] *)
Definition movie_mapping (all : list Movie) : list (Z * Movie) :=
  fold_left (fun d m => dict_set (tmdb_id m) m d) all [].

Definition test_user : str := literal "test_user".

(** The [for m in movie_mapping.values()] loop: the first value while
    fewer than 1000 ratings are collected, else nothing. *)
Definition pick_movie (mapping : list (Z * Movie))
    (ratings_to_create : list Rating) : option Movie :=
  match mapping with
  | [] => None
  | (_, m) :: _ =>
      if length ratings_to_create <? 1000 then Some m else None
  end.

(** The loop over [ratings.csv]. *)
Fixpoint read_ratings (mapping : list (Z * Movie)) (rows : list rating_row)
    (ratings_to_create : list Rating) (processed_count : nat)
  : option (list Rating) :=
  match rows with
  | [] => Some ratings_to_create
  | row :: rest =>
      match int_cell (rating_userId row) with
      | None => None
      | Some user_id =>
          if negb (Z.eqb user_id 1) then
            read_ratings mapping rest ratings_to_create processed_count
          else
            match int_cell (rating_movieId row),
                  float_cell (rating_rating row),
                  int_cell (rating_timestamp row) with
            | Some movie_id, Some rating_value, Some timestamp =>
                match pick_movie mapping ratings_to_create with
                | None =>
                    read_ratings mapping rest ratings_to_create
                      processed_count
                | Some m =>
                    let r := {| user := test_user;
                                movie := m;
                                rating := rating_value |} in
                    if 1000 <=? S processed_count
                    then Some (ratings_to_create ++ [r])
                    else read_ratings mapping rest
                           (ratings_to_create ++ [r]) (S processed_count)
                end
            | _, _, _ => None
            end
      end
  end.

(** [populate_ratings()]: the list handed to [bulk_create]. *)
Definition populate_ratings (all : list Movie)
    (ratings : option (list rating_row)) : list Rating :=
  match movie_mapping all with
  | [] => []
  | mapping =>
      match ratings with
      | None => []
      | Some rows =>
          match read_ratings mapping rows [] 0 with
          | None => []
          | Some ratings_to_create => ratings_to_create
          end
      end
  end.

(* ------------------------------------------------------------------ *)
(** ** Movies *)
(* ------------------------------------------------------------------ *)

Lemma read_movies_length (tmdb_mapping : list (Z * Z))
    (rows : list movie_row) (processed_count calls : nat)
    (ms : list Movie) :
  read_movies tmdb_mapping rows processed_count calls = Some ms ->
  processed_count <= MAX_MOVIES ->
  length ms + processed_count <= MAX_MOVIES.
Proof.
  revert processed_count calls ms.
  induction rows as [ | row rest IH ]; intros p c ms H Hp.
  - inversion H. simpl. exact Hp.
  - cbn -[Nat.leb MAX_MOVIES] in H.
    destruct (Nat.leb_spec MAX_MOVIES p) as [Hge | Hlt].
    + inversion H. simpl. exact Hp.
    + destruct (int_cell (movie_movieId row)) as [ movie_id | ];
        [ | discriminate H ].
      destruct (getitem (movie_title row)) as [ t | ]; [ | discriminate H ].
      destruct (getitem (movie_genres row)) as [ g | ]; [ | discriminate H ].
      destruct (lookup movie_id tmdb_mapping) as [ tmdb | ].
      * destruct (get_tmdb_movie_details c tmdb) as [[ ov | ] poster].
        -- destruct t as [ t | ]; [ | discriminate H ].
           destruct (read_movies tmdb_mapping rest (S p) (S c))
             as [ ms' | ] eqn:E; [ | discriminate H ].
           inversion H; subst. simpl.
           specialize (IH (S p) (S c) ms' E). lia.
        -- apply (IH p (S c) ms H Hp).
      * apply (IH p c ms H Hp).
Qed.

(** X12. [populate_movies] never hands more than [MAX_MOVIES] (5000)
    movies to [bulk_create], however long the files are. *)
Theorem populate_movies_at_most_max
    (links : option (list link_row)) (movies : option (list movie_row)) :
  length (populate_movies links movies) <= MAX_MOVIES.
Proof.
  unfold populate_movies.
  destruct links as [ link_rows | ]; [ | apply Nat.le_0_l ].
  destruct (read_links link_rows []) as [ tmdb_mapping | ];
    [ | apply Nat.le_0_l ].
  destruct movies as [ movie_rows | ]; [ | apply Nat.le_0_l ].
  destruct (read_movies tmdb_mapping movie_rows 0 0) as [ ms | ] eqn:E;
    [ | apply Nat.le_0_l ].
  pose proof (read_movies_length tmdb_mapping movie_rows 0 0 ms E
                (Nat.le_0_l _)).
  lia.
Qed.

(** A binding of the mapping comes from a line of [links.csv]. *)
Definition linked (link_rows : list link_row) (movie_id tmdb : Z) : Prop :=
  exists row t,
    In row link_rows /\
    int_cell (link_movieId row) = Some movie_id /\
    link_tmdbId row = Text t /\
    py_int t = Some tmdb.

Lemma read_links_linked (rows all : list link_row)
    (d0 d : list (Z * Z)) :
  (forall row, In row rows -> In row all) ->
  (forall k v, lookup k d0 = Some v -> linked all k v) ->
  read_links rows d0 = Some d ->
  forall k v, lookup k d = Some v -> linked all k v.
Proof.
  revert d0. induction rows as [ | row rest IH ]; intros d0 Hsub Hd0 H.
  - inversion H; subst. exact Hd0.
  - simpl in H.
    assert (Hrest : forall r, In r rest -> In r all).
    { intros r Hr. apply Hsub. right. exact Hr. }
    destruct (int_cell (link_movieId row)) as [ movie_id | ] eqn:Ei;
      [ | discriminate H ].
    destruct (link_tmdbId row) as [ | | [ | c t ] ] eqn:Et;
      try discriminate H.
    + apply (IH d0 Hrest Hd0 H).
    + apply (IH d0 Hrest Hd0 H).
    + destruct (py_int (c :: t)) as [ tmdb | ] eqn:Ep; [ | discriminate H ].
      apply (IH ((movie_id, tmdb) :: d0) Hrest); [ | exact H ].
      intros k v Hk. simpl in Hk.
      destruct (Z.eqb_spec movie_id k) as [ <- | _ ].
      * inversion Hk; subst. exists row, (c :: t).
        repeat split; try assumption. apply Hsub. left. reflexivity.
      * apply Hd0, Hk.
Qed.

Lemma read_movies_In (tmdb_mapping : list (Z * Z))
    (rows : list movie_row) (processed_count calls : nat)
    (ms : list Movie) (m : Movie) :
  read_movies tmdb_mapping rows processed_count calls = Some ms ->
  In m ms ->
  exists row movie_id,
    In row rows /\
    int_cell (movie_movieId row) = Some movie_id /\
    lookup movie_id tmdb_mapping = Some (tmdb_id m) /\
    movie_title row = Text (title m) /\
    getitem (movie_genres row) = Some (genre m) /\
    director m = literal "Unknown" /\
    release_year m = year_of_title (title m).
Proof.
  revert processed_count calls ms.
  induction rows as [ | row rest IH ]; intros p c ms H Hin.
  - inversion H; subst. contradiction.
  - cbn -[Nat.leb MAX_MOVIES] in H.
    assert (Hrest : forall p' c' ms',
               read_movies tmdb_mapping rest p' c' = Some ms' ->
               In m ms' ->
               exists row0 movie_id,
                 In row0 (row :: rest) /\
                 int_cell (movie_movieId row0) = Some movie_id /\
                 lookup movie_id tmdb_mapping = Some (tmdb_id m) /\
                 movie_title row0 = Text (title m) /\
                 getitem (movie_genres row0) = Some (genre m) /\
                 director m = literal "Unknown" /\
                 release_year m = year_of_title (title m)).
    { intros p' c' ms' H' Hin'.
      destruct (IH p' c' ms' H' Hin') as (row0 & k & Hr & Hrest).
      exists row0, k. split; [ right; exact Hr | exact Hrest ]. }
    destruct (MAX_MOVIES <=? p).
    + inversion H; subst. contradiction.
    + destruct (int_cell (movie_movieId row)) as [ movie_id | ] eqn:Ei;
        [ | discriminate H ].
      destruct (movie_title row) as [ | | t ] eqn:Et; simpl in H;
        try discriminate H;
        destruct (getitem (movie_genres row)) as [ g | ] eqn:Eg;
        try discriminate H;
        destruct (lookup movie_id tmdb_mapping) as [ tmdb | ] eqn:El;
        try (apply (Hrest _ _ _ H Hin));
        destruct (get_tmdb_movie_details c tmdb) as [[ ov | ] poster];
        try (apply (Hrest _ _ _ H Hin)); try discriminate H.
      destruct (read_movies tmdb_mapping rest (S p) (S c))
        as [ ms' | ] eqn:E; [ | discriminate H ].
      inversion H; subst. destruct Hin as [ <- | Hin ].
      * exists row, movie_id. simpl.
        repeat split; try assumption; auto.
      * apply (Hrest _ _ _ E Hin).
Qed.

(** X13. Every movie [populate_movies] creates comes from a line of
    [movies.csv] and a line of [links.csv] with the same movie id: it
    carries that line's title and genres, the TMDb id parsed from the
    link, the director "Unknown", and the year read off its title. *)
Theorem populate_movies_provenance
    (link_rows : list link_row) (movie_rows : list movie_row) (m : Movie) :
  In m (populate_movies (Some link_rows) (Some movie_rows)) ->
  exists link row movie_id t,
    In link link_rows /\ In row movie_rows /\
    int_cell (link_movieId link) = Some movie_id /\
    int_cell (movie_movieId row) = Some movie_id /\
    link_tmdbId link = Text t /\
    py_int t = Some (tmdb_id m) /\
    movie_title row = Text (title m) /\
    getitem (movie_genres row) = Some (genre m) /\
    director m = literal "Unknown" /\
    release_year m = year_of_title (title m).
Proof.
  unfold populate_movies. intros Hin.
  destruct (read_links link_rows []) as [ tmdb_mapping | ] eqn:El;
    [ | contradiction ].
  destruct (read_movies tmdb_mapping movie_rows 0 0) as [ ms | ] eqn:Em;
    [ | contradiction ].
  destruct (read_movies_In tmdb_mapping movie_rows 0 0 ms m Em Hin)
    as (row & movie_id & Hrow & Hid & Hlook & Ht & Hg & Hd & Hy).
  destruct (read_links_linked link_rows link_rows [] tmdb_mapping
              (fun r H => H)
              (fun k v (H : lookup k [] = Some v) =>
                 ltac:(discriminate H))
              El movie_id (tmdb_id m) Hlook)
    as (link & t & Hlink & Hlid & Htm & Hp).
  exists link, row, movie_id, t. repeat split; assumption.
Qed.

(* ------------------------------------------------------------------ *)
(** ** The year of a title *)
(* ------------------------------------------------------------------ *)

Lemma endswith_snoc (c : N) (s : str) : endswith c (s ++ [c]) = true.
Proof.
  unfold endswith. rewrite rev_app_distr. simpl. apply N.eqb_refl.
Qed.

Lemma split_nonempty (c : N) (s : str) : split c s <> [].
Proof.
  destruct s as [ | x s ]; simpl.
  - discriminate.
  - destruct (N.eqb x c); [ discriminate | ].
    destruct (split c s); discriminate.
Qed.

Lemma split_without (c : N) (s : str) :
  ~ In c s -> split c s = [s].
Proof.
  induction s as [ | x s IH ]; simpl; intros H.
  - reflexivity.
  - destruct (N.eqb_spec x c) as [ E | _ ].
    + exfalso. apply H. left. exact E.
    + rewrite IH; [ reflexivity | ]. intros Hin. apply H. right. exact Hin.
Qed.

Lemma last_cons_nonempty {A} (x d : A) (l : list A) :
  l <> [] -> last (x :: l) d = last l d.
Proof.
  destruct l; [ contradiction | reflexivity ].
Qed.

Lemma split_separator_length (c : N) (prefix tail : str) :
  2 <= length (split c (prefix ++ c :: tail)).
Proof.
  induction prefix as [ | x prefix IH ]; simpl.
  - rewrite N.eqb_refl. simpl.
    destruct (split c tail) eqn:E; [ | simpl; lia ].
    exfalso. apply (split_nonempty c tail E).
  - destruct (N.eqb x c); [ simpl; lia | ].
    destruct (split c (prefix ++ c :: tail)); simpl in *; lia.
Qed.

Lemma last_split_cons (c x : N) (s : str) :
  2 <= length (split c s) ->
  last (split c (x :: s)) [] = last (split c s) [].
Proof.
  intros H. simpl. destruct (N.eqb x c).
  - apply last_cons_nonempty. apply split_nonempty.
  - destruct (split c s) as [ | seg [ | seg' segs ] ]; simpl in H;
      try lia.
    reflexivity.
Qed.

(** The piece after the last separator. *)
Lemma last_split_app (c : N) (prefix tail : str) :
  ~ In c tail ->
  last (split c (prefix ++ c :: tail)) [] = tail.
Proof.
  intros H. induction prefix as [ | x prefix IH ].
  - simpl. rewrite N.eqb_refl.
    rewrite last_cons_nonempty by apply split_nonempty.
    rewrite split_without by exact H. reflexivity.
  - change ((x :: prefix) ++ c :: tail) with (x :: (prefix ++ c :: tail)).
    rewrite last_split_cons by apply split_separator_length.
    exact IH.
Qed.

Lemma lstrip_without (c : N) (s : str) :
  hd_error s <> Some c -> lstrip c s = s.
Proof.
  destruct s as [ | x s ]; simpl; intros H.
  - reflexivity.
  - destruct (N.eqb_spec x c) as [ -> | _ ]; [ | reflexivity ].
    exfalso. apply H. reflexivity.
Qed.

Lemma rstrip_snoc (c : N) (s : str) :
  ~ In c s -> rstrip c (s ++ [c]) = s.
Proof.
  intros H. unfold rstrip. rewrite rev_app_distr. simpl.
  rewrite N.eqb_refl. rewrite lstrip_without.
  - apply rev_involutive.
  - intros E. apply H. apply in_rev.
    destruct (rev s) as [ | x l ]; [ discriminate E | ].
    inversion E; subst. left. reflexivity.
Qed.

(** X14. For a title that ends in a parenthesised group of four digits,
    [... (dddd)], the stored year is the number in the group, except
    that 0000 is stored as 2000; for a title that does not end in a
    closing parenthesis the stored year is 2000; the stored year is
    never 0. *)
Theorem year_of_title_parenthesised (prefix year_str : str) (y : Z) :
  ~ In lparen year_str -> ~ In rparen year_str ->
  isdigit year_str = true ->
  length year_str = 4 ->
  py_int year_str = Some y ->
  year_of_title (prefix ++ lparen :: year_str ++ [rparen]) =
    (if Z.eqb y 0 then 2000%Z else y) /\
  (forall title, endswith rparen title = false ->
     year_of_title title = 2000%Z) /\
  (forall title, year_of_title title <> 0%Z).
Proof.
  intros Hl Hr Hd Hlen Hint. split; [ | split ].
  - unfold year_of_title.
    replace (prefix ++ lparen :: year_str ++ [rparen])
      with ((prefix ++ lparen :: year_str) ++ [rparen])
      by (rewrite <- app_assoc; reflexivity).
    rewrite endswith_snoc.
    rewrite <- app_assoc. simpl app.
    rewrite last_split_app.
    + rewrite rstrip_snoc by exact Hr.
      rewrite Hd, Hlen, Hint. reflexivity.
    + intros Hin. apply in_app_or in Hin. destruct Hin as [ Hin | Hin ].
      * apply Hl, Hin.
      * destruct Hin as [ E | [] ]. discriminate E.
  - intros title H. unfold year_of_title. rewrite H. reflexivity.
  - intros title. unfold year_of_title.
    destruct (endswith rparen title); [ | lia ].
    destruct (isdigit _ && _); [ | lia ].
    destruct (py_int (rstrip _ _)) as [ v | ]; [ | lia ].
    destruct (Z.eqb_spec v 0); lia.
Qed.

(* ------------------------------------------------------------------ *)
(** ** Ratings *)
(* ------------------------------------------------------------------ *)

Lemma fold_dict_set_head (l : list Movie) (k1 : Z) (v1 : Movie)
    (d : list (Z * Movie)) :
  (forall m, In m l -> tmdb_id m <> k1) ->
  exists d',
    fold_left (fun d m => dict_set (tmdb_id m) m d) l ((k1, v1) :: d)
      = (k1, v1) :: d'.
Proof.
  revert d. induction l as [ | m l IH ]; intros d H; simpl.
  - exists d. reflexivity.
  - destruct (Z.eqb_spec k1 (tmdb_id m)) as [ E | _ ].
    + exfalso. apply (H m); [ left; reflexivity | symmetry; exact E ].
    + apply IH. intros m' Hm'. apply H. right. exact Hm'.
Qed.

Lemma fold_dict_set_nonempty (l : list Movie) (d : list (Z * Movie)) :
  d <> [] ->
  fold_left (fun d m => dict_set (tmdb_id m) m d) l d <> [].
Proof.
  revert d. induction l as [ | m l IH ]; intros d H; simpl.
  - exact H.
  - apply IH. destruct d as [ | [k v] d ]; simpl.
    + discriminate.
    + destruct (Z.eqb k (tmdb_id m)); discriminate.
Qed.

Lemma movie_mapping_nonempty (all : list Movie) :
  all <> [] -> movie_mapping all <> [].
Proof.
  destruct all as [ | m all ]; [ contradiction | ]. intros _.
  unfold movie_mapping. simpl. apply fold_dict_set_nonempty. discriminate.
Qed.

(** With distinct TMDb ids the first value of the mapping is the first
    movie. *)
Lemma movie_mapping_first (m1 : Movie) (rest : list Movie) :
  NoDup (map tmdb_id (m1 :: rest)) ->
  exists d, movie_mapping (m1 :: rest) = (tmdb_id m1, m1) :: d.
Proof.
  intros H. unfold movie_mapping. simpl.
  apply fold_dict_set_head. intros m Hm E.
  simpl in H. inversion H as [ | ? ? Hnotin _ ]; subst.
  apply Hnotin. rewrite <- E. apply in_map. exact Hm.
Qed.

Lemma read_ratings_inv (mapping : list (Z * Movie))
    (rows : list rating_row) (acc out : list Rating) (p : nat) :
  read_ratings mapping rows acc p = Some out ->
  length acc = p -> p < 1000 ->
  length out <= 1000 /\
  (forall r, In r out ->
     In r acc \/
     (user r = test_user /\
      exists k m d, mapping = (k, m) :: d /\ movie r = m)).
Proof.
  revert acc p. induction rows as [ | row rest IH ]; intros acc p H Hlen Hp.
  - inversion H; subst. split; [ lia | auto ].
  - cbn -[Nat.leb Nat.ltb] in H.
    destruct (int_cell (rating_userId row)) as [ user_id | ];
      [ | discriminate H ].
    destruct (negb (Z.eqb user_id 1)); [ apply (IH acc p H Hlen Hp) | ].
    destruct (int_cell (rating_movieId row)); [ | discriminate H ].
    destruct (float_cell (rating_rating row)) as [ v | ];
      [ | discriminate H ].
    destruct (int_cell (rating_timestamp row)); [ | discriminate H ].
    destruct (pick_movie mapping acc) as [ m | ] eqn:Epick;
      [ | apply (IH acc p H Hlen Hp) ].
    assert (Hm : exists k d, mapping = (k, m) :: d).
    { unfold pick_movie in Epick. destruct mapping as [ | [k m'] d ];
        [ discriminate Epick | ].
      destruct (length acc <? 1000); inversion Epick; subst. eauto. }
    destruct Hm as (k & d & Hmap).
    assert (Hnew : forall r,
               In r (acc ++ [{| user := test_user; movie := m;
                                rating := v |}]) ->
               In r acc \/
               (user r = test_user /\
                exists k m0 d, mapping = (k, m0) :: d /\ movie r = m0)).
    { intros r Hr. apply in_app_or in Hr. destruct Hr as [ Hr | Hr ].
      - left. exact Hr.
      - destruct Hr as [ <- | [] ]. right. simpl. split; [ reflexivity | ].
        exists k, m, d. auto. }
    destruct (Nat.leb_spec 1000 (S p)) as [ Hstop | Hgo ].
    + inversion H; subst out. split.
      * rewrite length_app. simpl. lia.
      * exact Hnew.
    + destruct (IH _ (S p) H) as (Hl & Hin).
      * rewrite length_app. simpl. lia.
      * lia.
      * split; [ exact Hl | ].
        intros r Hr. destruct (Hin r Hr) as [ Hacc | Hright ].
        -- apply Hnew, Hacc.
        -- right. exact Hright.
Qed.

(** X15. [populate_ratings] never creates more than 1000 ratings. *)
Theorem populate_ratings_at_most_1000
    (all : list Movie) (ratings : option (list rating_row)) :
  length (populate_ratings all ratings) <= 1000.
Proof.
  unfold populate_ratings.
  destruct (movie_mapping all) as [ | b d ]; [ apply Nat.le_0_l | ].
  destruct ratings as [ rows | ]; [ | apply Nat.le_0_l ].
  destruct (read_ratings (b :: d) rows [] 0) as [ out | ] eqn:E;
    [ | apply Nat.le_0_l ].
  apply (read_ratings_inv (b :: d) rows [] out 0 E eq_refl).
  lia.
Qed.

(** X16. Every rating [populate_ratings] creates is a rating of the test
    user for one and the same movie, whatever movie id its line names:
    with distinct TMDb ids in the movie table, the first movie of the
    table. *)
Theorem populate_ratings_single_movie
    (m1 : Movie) (rest : list Movie) (ratings : option (list rating_row))
    (r : Rating) :
  NoDup (map tmdb_id (m1 :: rest)) ->
  In r (populate_ratings (m1 :: rest) ratings) ->
  user r = test_user /\ movie r = m1.
Proof.
  intros Hnd Hin. unfold populate_ratings in Hin.
  destruct (movie_mapping_first m1 rest Hnd) as (d & Hmap).
  rewrite Hmap in Hin.
  destruct ratings as [ rows | ]; [ | contradiction ].
  destruct (read_ratings ((tmdb_id m1, m1) :: d) rows [] 0)
    as [ out | ] eqn:E; [ | contradiction ].
  destruct (read_ratings_inv _ rows [] out 0 E eq_refl) as (_ & H);
    [ lia | ].
  destruct (H r Hin) as [ [] | (Hu & k & m & d' & Hm & Hmov) ].
  inversion Hm; subst. auto.
Qed.

(** The rating values of the lines of user 1, in file order. *)
Fixpoint user1_ratings (rows : list rating_row) : list float :=
  match rows with
  | [] => []
  | row :: rest =>
      match int_cell (rating_userId row), float_cell (rating_rating row) with
      | Some user_id, Some v =>
          if Z.eqb user_id 1 then v :: user1_ratings rest
          else user1_ratings rest
      | _, _ => user1_ratings rest
      end
  end.

(** A line whose cells parse: the user id always, the rest for user 1. *)
Definition row_ok (row : rating_row) : Prop :=
  exists user_id,
    int_cell (rating_userId row) = Some user_id /\
    (user_id = 1%Z ->
     int_cell (rating_movieId row) <> None /\
     float_cell (rating_rating row) <> None /\
     int_cell (rating_timestamp row) <> None).

Lemma firstn_exact {A} (n : nat) (l l' : list A) :
  length l = n -> firstn n (l ++ l') = l.
Proof.
  intros <-. rewrite firstn_app, Nat.sub_diag, firstn_all. simpl.
  apply app_nil_r.
Qed.

Lemma read_ratings_exact (mapping : list (Z * Movie))
    (rows : list rating_row) (acc : list Rating) (p : nat) :
  mapping <> [] ->
  Forall row_ok rows ->
  length acc = p -> p < 1000 ->
  exists out,
    read_ratings mapping rows acc p = Some out /\
    map rating out = firstn 1000 (map rating acc ++ user1_ratings rows).
Proof.
  intros Hmap Hok. revert acc p.
  induction Hok as [ | row rest (u & Hu & Hrow) _ IH ]; intros acc p Hlen Hp.
  - exists acc. split; [ reflexivity | ].
    change (user1_ratings []) with (@nil float).
    rewrite app_nil_r. symmetry. apply firstn_all2.
    rewrite length_map. lia.
  - cbn -[Nat.leb Nat.ltb firstn]. rewrite Hu.
    destruct (Z.eqb_spec u 1) as [ E | _ ]; simpl negb; cbv iota.
    + destruct (Hrow E) as (Hm & Hv & Ht).
      destruct (int_cell (rating_movieId row)); [ | contradiction ].
      destruct (float_cell (rating_rating row)) as [ v | ];
        [ | contradiction ].
      destruct (int_cell (rating_timestamp row)); [ | contradiction ].
      assert (Hpick : exists m, pick_movie mapping acc = Some m).
      { unfold pick_movie. destruct mapping as [ | [k m] d ];
          [ contradiction | ].
        assert (Hlt : (length acc <? 1000) = true)
          by (apply Nat.ltb_lt; lia).
        rewrite Hlt. eauto. }
      destruct Hpick as (m & ->).
      destruct (Nat.leb_spec 1000 (S p)) as [ Hstop | Hgo ].
      * eexists. split; [ reflexivity | ].
        rewrite map_app. simpl map.
        replace (map rating acc ++ v :: user1_ratings rest)
          with ((map rating acc ++ [v]) ++ user1_ratings rest)
          by (rewrite <- app_assoc; reflexivity).
        symmetry. apply firstn_exact.
        rewrite length_app, length_map. simpl. lia.
      * destruct (IH (acc ++ [{| user := test_user; movie := m;
                                rating := v |}]) (S p))
          as (out & Hout & Hmapout).
        -- rewrite length_app. simpl. lia.
        -- lia.
        -- exists out. split; [ exact Hout | ].
           rewrite Hmapout, map_app. simpl map.
           rewrite <- app_assoc. reflexivity.
    + destruct (float_cell (rating_rating row)); apply (IH acc p Hlen Hp).
Qed.

(** X17. When the movie table is not empty and every line of
    [ratings.csv] parses, the ratings created carry, in file order, the
    rating values of the first 1000 lines of user 1; lines of other
    users contribute nothing. *)
Theorem populate_ratings_first_user_lines
    (all : list Movie) (rows : list rating_row) :
  all <> [] ->
  Forall row_ok rows ->
  map rating (populate_ratings all (Some rows)) =
  firstn 1000 (user1_ratings rows).
Proof.
  intros Hall Hok. unfold populate_ratings.
  pose proof (movie_mapping_nonempty all Hall) as Hmap.
  destruct (movie_mapping all) as [ | b d ] eqn:E; [ contradiction | ].
  destruct (read_ratings_exact (b :: d) rows [] 0 Hmap Hok eq_refl)
    as (out & Hout & Hres); [ lia | ].
  rewrite Hout. exact Hres.
Qed.

End Script.

End Populate.

(* ================================================================== *)
(** * The further theorems at concrete inputs *)
(* ================================================================== *)

Lemma scenario_snapshots_ok : snapshots_ok (Run.scenario []).
Proof.
  split.
  - simpl. repeat constructor; simpl; intuition discriminate.
  - intros rt [ <- | [] ]. simpl. auto.
Qed.

Lemma returned_list_contract_witness :
  length [2; 3] <= 2 /\ NoDup [2; 3] /\
  (forall movie_id, In movie_id [2; 3] ->
     In movie_id (map Movie.id (movies_df (Run.scenario [])))).
Proof.
  apply (returned_list_contract unit nat Run.mean Run.mean
           Run.sort_values_descending (Run.scenario []) Run.first_rows
           7 2 [2; 3]).
  - exact run_sort_values_spec.
  - exact first_rows_ok.
  - exact scenario_snapshots_ok.
  - vm_compute. reflexivity.
Defined.

Lemma hybrid_path_returns_every_unrated_movie_witness :
  Permutation [2; 3] [2; 3].
Proof.
  apply (hybrid_path_returns_every_unrated_movie unit nat Run.mean
           Run.mean Run.sort_values_descending (Run.scenario [])
           Run.first_rows 7 5 [2; 3]).
  - discriminate.
  - simpl. lia.
  - vm_compute. reflexivity.
Defined.

Lemma cold_start_returns_every_rated_movie_witness :
  exists res,
    Run.get_recommendations (Run.scenario []) Run.first_rows 9 4
      = inr res /\
    NoDup res /\
    (forall movie_id,
       In movie_id res <->
       exists rt, In rt (ratings_df (Run.scenario [])) /\
                  Rating.movie_id rt = movie_id).
Proof.
  apply (cold_start_returns_every_rated_movie unit nat Run.mean Run.mean
           Run.sort_values_descending (Run.scenario []) Run.first_rows
           9 4).
  - exact run_sort_values_spec.
  - reflexivity.
  - discriminate.
  - simpl. lia.
Defined.

Lemma cold_start_ignores_user_and_models_witness :
  Run.get_recommendations (Run.scenario []) Run.first_rows 9 2 =
  Run.get_recommendations
    (with_watchlist stale_engine [Watchlist.mk 1 8 2 0])
    Run.first_rows 8 2.
Proof.
  apply (cold_start_ignores_user_and_models unit nat Run.mean Run.mean
           Run.sort_values_descending (Run.scenario [])
           (with_watchlist stale_engine [Watchlist.mk 1 8 2 0])
           Run.first_rows 9 8 2); reflexivity.
Defined.

(** The scenario with rows of another user added to both frames. *)
Definition crowded_scenario : Run.engine :=
  {| movies_df := [Run.movie 1; Run.movie 2; Run.movie 3];
     ratings_df := [Run.rate 2 8 2 3.0; Run.rate 1 7 1 4.5;
                    Run.rate 3 8 3 5.0];
     watchlist_df := [Watchlist.mk 1 8 3 0];
     tfidf_vectorizer := tt;
     tfidf_matrix := 3;
     content_similarity :=
       [[1; 0.8; 0.1]; [0.8; 1; 0.3]; [0.1; 0.3; 1]]%float;
     svd_model := PyNone |}.

Lemma hybrid_path_uses_own_rows_only_witness :
  Run.get_recommendations (Run.scenario []) Run.first_rows 7 2 =
  Run.get_recommendations crowded_scenario Run.last_rows 7 2.
Proof.
  apply (hybrid_path_uses_own_rows_only unit nat Run.mean Run.mean
           Run.sort_values_descending (Run.scenario []) crowded_scenario
           Run.first_rows Run.last_rows 7 2).
  - reflexivity.
  - reflexivity.
  - reflexivity.
  - reflexivity.
  - intros movie_id. reflexivity.
  - discriminate.
Defined.

Lemma hybrid_path_returns_when_matrix_covers_frame_witness :
  exists res,
    Run.get_recommendations (Run.scenario []) Run.first_rows 7 2 = inr res.
Proof.
  apply (hybrid_path_returns_when_matrix_covers_frame unit nat Run.mean
           Run.mean Run.sort_values_descending (Run.scenario [])
           Run.first_rows 7 2).
  - split; [ simpl; lia | repeat constructor ].
  - discriminate.
Defined.

Lemma hybrid_path_raises_on_short_matrix_witness :
  Run.get_recommendations stale_engine Run.first_rows 7 2
    = inl IndexError.
Proof.
  apply (hybrid_path_raises_on_short_matrix unit nat Run.mean Run.mean
           Run.sort_values_descending stale_engine Run.first_rows 7 2
           (1, Run.movie 2)).
  - simpl. left. reflexivity.
  - simpl. lia.
  - discriminate.
Defined.

Lemma construction_keeps_cache_files_witness :
  content_model_pkl
    (snd (__init__ Run.fit_transform Run.cosine_similarity Run.svd_fit
            {| content_model_pkl := Some Garbage;
               svd_model_pkl := Some Unreadable |} connection))
    = Some Garbage /\
  svd_model_pkl
    (snd (__init__ Run.fit_transform Run.cosine_similarity Run.svd_fit
            {| content_model_pkl := None;
               svd_model_pkl := Some Unreadable |} connection))
    = Some Unreadable.
Proof.
  split.
  - apply (proj1 (construction_keeps_cache_files unit nat
                    Run.fit_transform Run.cosine_similarity Run.svd_fit
                    {| content_model_pkl := Some Garbage;
                       svd_model_pkl := Some Unreadable |} connection)).
    reflexivity.
  - apply (proj2 (construction_keeps_cache_files unit nat
                    Run.fit_transform Run.cosine_similarity Run.svd_fit
                    {| content_model_pkl := None;
                       svd_model_pkl := Some Unreadable |}
                    connection)).
    reflexivity.
Defined.

Lemma foreign_pickle_gives_neutral_scores_witness :
  exists self cache1,
    __init__ Run.fit_transform Run.cosine_similarity Run.svd_fit
      {| content_model_pkl := None;
         svd_model_pkl := Some (Pickle PyOther) |} connection
      = (inr self, cache1) /\
    _get_collaborative_score self 7 2 = 3.0%float.
Proof.
  eexists. eexists. split.
  - reflexivity.
  - eapply (foreign_pickle_gives_neutral_scores unit nat Run.fit_transform
              Run.cosine_similarity Run.svd_fit
              {| content_model_pkl := None;
                 svd_model_pkl := Some (Pickle PyOther) |})
      with (connection := connection) (o := PyOther).
    + reflexivity.
    + discriminate.
    + reflexivity.
Defined.

(** Two movies and no rating in the database. *)
Definition fresh_database : database :=
  {| recommender_movie := [Run.movie 1; Run.movie 2];
     recommender_rating := [];
     recommender_watchlist := [] |}.

Lemma test_recommender_hides_sampling_error_witness :
  fst (test_recommender unit nat Run.fit_transform Run.cosine_similarity
         Run.svd_fit Run.mean Run.mean Run.sort_values_descending
         Run.empty_cache fresh_database Run.first_rows) = [].
Proof.
  erewrite (test_recommender_hides_sampling_error unit nat
              Run.fit_transform Run.cosine_similarity Run.svd_fit Run.mean
              Run.mean Run.sort_values_descending Run.empty_cache)
    with (connection := fresh_database).
  - reflexivity.
  - reflexivity.
  - reflexivity.
  - simpl. lia.
Defined.

(** Stand-ins for [int], [float], [str.isdigit] and the TMDb API, for
    ASCII text: enough to run the import script on concrete files. *)
Module RunImport.

Definition digit (c : N) : option Z :=
  if (N.leb 48 c && N.leb c 57)%bool then Some (Z.of_N (c - 48)) else None.

Fixpoint digits (s : Populate.str) (acc : Z) : option Z :=
  match s with
  | [] => Some acc
  | c :: s' =>
      match digit c with
      | Some d => digits s' (10 * acc + d)%Z
      | None => None
      end
  end.

Definition py_int (s : Populate.str) : option Z :=
  match s with
  | [] => None
  | _ :: _ => digits s 0
  end.

Definition isdigit (s : Populate.str) : bool :=
  match s with
  | [] => false
  | _ :: _ =>
      forallb (fun c => match digit c with Some _ => true | None => false end)
              s
  end.

(** Reads "45" as 4.5. *)
Definition py_float (s : Populate.str) : option float :=
  match py_int s with
  | Some z => Some (PrimFloat.of_uint63 (Uint63.of_Z z) / 10)%float
  | None => None
  end.

Definition http_get (call : nat) (tmdb_id : Z) : Populate.reply :=
  Populate.Object (Populate.Str (Populate.literal "A cowboy doll."))
                  (Populate.Str (Populate.literal "/toy.jpg")).

Definition links : list Populate.link_row :=
  [ {| Populate.link_movieId := Populate.Text (Populate.literal "1");
       Populate.link_tmdbId := Populate.Text (Populate.literal "862") |};
    {| Populate.link_movieId := Populate.Text (Populate.literal "2");
       Populate.link_tmdbId := Populate.Text [] |} ].

Definition movies : list Populate.movie_row :=
  [ {| Populate.movie_movieId := Populate.Text (Populate.literal "1");
       Populate.movie_title :=
         Populate.Text (Populate.literal "Toy Story (1995)");
       Populate.movie_genres :=
         Populate.Text (Populate.literal "Animation") |};
    {| Populate.movie_movieId := Populate.Text (Populate.literal "2");
       Populate.movie_title :=
         Populate.Text (Populate.literal "Jumanji (1995)");
       Populate.movie_genres :=
         Populate.Text (Populate.literal "Adventure") |} ].

Definition toy_story : Populate.Movie :=
  {| Populate.title := Populate.literal "Toy Story (1995)";
     Populate.genre := Some (Populate.literal "Animation");
     Populate.director := Populate.literal "Unknown";
     Populate.release_year := 1995;
     Populate.overview := Populate.literal "A cowboy doll.";
     Populate.poster_url :=
       Some (Populate.literal "https://image.tmdb.org/t/p/w500/toy.jpg");
     Populate.tmdb_id := 862 |}.

Definition heat : Populate.Movie :=
  {| Populate.title := Populate.literal "Heat (1995)";
     Populate.genre := Some (Populate.literal "Action");
     Populate.director := Populate.literal "Unknown";
     Populate.release_year := 1995;
     Populate.overview := [];
     Populate.poster_url := None;
     Populate.tmdb_id := 949 |}.

Definition rating_line (user_id movie_id rating : string)
  : Populate.rating_row :=
  {| Populate.rating_userId := Populate.Text (Populate.literal user_id);
     Populate.rating_movieId := Populate.Text (Populate.literal movie_id);
     Populate.rating_rating := Populate.Text (Populate.literal rating);
     Populate.rating_timestamp := Populate.Text (Populate.literal "0") |}.

(** Lines of users 1, 2 and 1, about movies 6, 1 and 2. *)
Definition ratings : list Populate.rating_row :=
  [ rating_line "1" "6" "45"; rating_line "2" "1" "20";
    rating_line "1" "2" "30" ].

End RunImport.

Example populate_movies_runs :
  Populate.populate_movies RunImport.py_int RunImport.isdigit
    RunImport.http_get (Some RunImport.links) (Some RunImport.movies)
  = [RunImport.toy_story].
Proof.
  vm_compute. reflexivity.
Qed.

Lemma populate_movies_provenance_witness :
  exists link row movie_id t,
    In link RunImport.links /\ In row RunImport.movies /\
    Populate.int_cell RunImport.py_int (Populate.link_movieId link)
      = Some movie_id /\
    Populate.int_cell RunImport.py_int (Populate.movie_movieId row)
      = Some movie_id /\
    Populate.link_tmdbId link = Populate.Text t /\
    RunImport.py_int t = Some 862%Z.
Proof.
  destruct (Populate.populate_movies_provenance RunImport.py_int
              RunImport.isdigit RunImport.http_get RunImport.links
              RunImport.movies RunImport.toy_story)
    as (link & row & movie_id & t & H1 & H2 & H3 & H4 & H5 & H6 & _).
  - vm_compute. left. reflexivity.
  - exists link, row, movie_id, t. repeat split; assumption.
Defined.

Lemma year_of_title_parenthesised_witness :
  Populate.year_of_title RunImport.py_int RunImport.isdigit
    (Populate.literal "Toy Story (1995)") = 1995%Z.
Proof.
  destruct (Populate.year_of_title_parenthesised RunImport.py_int
              RunImport.isdigit (Populate.literal "Toy Story ")
              (Populate.literal "1995") 1995) as (Hyear & _).
  - intros [ H | [ H | [ H | [ H | [] ] ] ] ]; discriminate H.
  - intros [ H | [ H | [ H | [ H | [] ] ] ] ]; discriminate H.
  - reflexivity.
  - reflexivity.
  - reflexivity.
  - exact Hyear.
Defined.

Lemma populate_ratings_single_movie_witness :
  Forall (fun r => Populate.user r = Populate.test_user /\
                   Populate.movie r = RunImport.toy_story)
         (Populate.populate_ratings RunImport.py_int RunImport.py_float
            [RunImport.toy_story; RunImport.heat]
            (Some RunImport.ratings)).
Proof.
  apply Forall_forall. intros r Hr.
  apply (Populate.populate_ratings_single_movie RunImport.py_int
           RunImport.py_float RunImport.toy_story [RunImport.heat]
           (Some RunImport.ratings) r).
  - simpl. repeat constructor; simpl; intuition discriminate.
  - exact Hr.
Defined.

Lemma populate_ratings_first_user_lines_witness :
  map Populate.rating
    (Populate.populate_ratings RunImport.py_int RunImport.py_float
       [RunImport.toy_story; RunImport.heat] (Some RunImport.ratings))
  = [4.5; 3.0]%float.
Proof.
  rewrite (Populate.populate_ratings_first_user_lines RunImport.py_int
             RunImport.py_float [RunImport.toy_story; RunImport.heat]
             RunImport.ratings).
  - vm_compute. reflexivity.
  - discriminate.
  - repeat constructor.
    + exists 1%Z. split; [ reflexivity | ]. intros _.
      repeat split; discriminate.
    + exists 2%Z. split; [ reflexivity | ]. intros H. discriminate H.
    + exists 1%Z. split; [ reflexivity | ]. intros _.
      repeat split; discriminate.
Defined.

Lemma shorter_request_is_prefix_witness :
  Run.get_recommendations (Run.scenario []) Run.first_rows 7 1
    = inr (firstn 1 [2; 3]).
Proof.
  apply (shorter_request_is_prefix unit nat Run.mean Run.mean
           Run.sort_values_descending (Run.scenario []) Run.first_rows
           7 1 2 [2; 3]).
  - discriminate.
  - lia.
  - vm_compute. reflexivity.
Defined.
